(** * AccountTokens: the "tokens" screen of the wallet extension

    A shallow embedding of
    [packages/extension/src/ui/features/accountTokens/AccountTokens.tsx].

    The component is a function of its [account] prop and of the values its
    hooks return.  It produces a JSX tree and registers four effects; the
    header receives the [onRedeploy] callback.  The embedding keeps these
    three parts apart:

    - [render] builds the JSX tree (pure);
    - [commit] runs the effects of one render the way React does, comparing
      each dependency array with the one of the previous run;
    - [onRedeploy] is the asynchronous callback, in a state-and-exception
      monad over the [World] outside the component.

    Everything the file imports from the rest of the repository (the account
    class, the routes table, the services) is a field of [Collaborators]. *)

From Stdlib Require Import ZArith List String Bool Lia.
Import ListNotations.

Local Open Scope string_scope.
Local Open Scope Z_scope.
Local Open Scope list_scope.

(* ===================================================================== *)
(** ** Collaborators *)
(* ===================================================================== *)

(** The types and pure helpers the component imports.  Their implementations
    live in other files of the repository; the component only passes their
    values along, so they are parameters here. *)
Class Collaborators : Type := {
  (** [Account] objects; dependency arrays compare them by identity. *)
  Account : Type;
  Account_eq_dec : forall a b : Account, {a = b} + {a <> b};
  BaseWalletAccount : Type;
  AccountStatus : Type;
  AccountNames : Type;
  Transaction : Type;
  TokenDetails : Type;
  Network : Type;
  ClassHash : Type;
  (** the value of the [error] field of the token-balance hook when set *)
  FetchError : Type;
  (** a thrown value, or the reason of a rejected promise *)
  Exn : Type;
  (** [account.toBaseWalletAccount()] *)
  toBaseWalletAccount : Account -> BaseWalletAccount;
  (** [getAccountIdentifier(account)] *)
  getAccountIdentifier : Account -> string;
  (** [isDeprecated(account)] *)
  isDeprecated : Account -> bool;
  (** [getAccountName(account, accountNames)] *)
  getAccountName : Account -> AccountNames -> string;
  (** [network.accountClassHash] *)
  accountClassHash : Network -> ClassHash;
  (** the paths returned by the calls [routes.userReview()],
      [routes.networkUpgradeV4()], [routes.accountUpgradeV4()] and
      [routes.funding()] *)
  routes_userReview : string;
  routes_networkUpgradeV4 : string;
  routes_accountUpgradeV4 : string;
  routes_funding : string
}.

(** How a call ends: with a value, or with a thrown value.  For an awaited
    promise, [Normal] is fulfilment and [Throw] is rejection. *)
Inductive Completion {E : Type} (A : Type) : Type :=
| Normal (a : A)
| Throw (e : E).
Arguments Normal {E A} a.
Arguments Throw {E A} e.

(** The object [redeployAccount] resolves to; only [txHash] is read. *)
Record RedeployResult : Type := { txHash : string }.

(** Functions handed out by hooks are compared by identity in dependency
    arrays; an identity is a number. *)
Definition FnId : Type := nat.

Section Model.
Context `{C : Collaborators}.

(** The key array of the [useSWR] call. *)
Definition SwrKey : Type := (string * ClassHash * string)%type.

(* ===================================================================== *)
(** ** The world outside the component *)
(* ===================================================================== *)

(** What a timer does when it fires. *)
Inductive Action : Type :=
| NavigateTo (nav : FnId) (to : string).

(** An entry of the browser's timer table. *)
Record Timer : Type := {
  timer_id : Z;
  timer_callback : Action;
  timer_delay : Z
}.

(** Calls into collaborators, in the order they are made. *)
Inductive Call : Type :=
| CallNavigate (nav : FnId) (to : string)
| CallUpdateLastShown
| CallConnectAccount (a : Account)
| CallMutate (mut : FnId) (data : bool)
| CallRedeployAccount (data : BaseWalletAccount)
| CallUpdateDeployTx (a : Account) (deployTransaction : string).

(** [calls] is the chronological log of collaborator calls, [timers] the
    pending timeouts and [nextTimerId] the handle the next [setTimeout]
    returns.  The two [_outcome] fields say how the background service and
    the account object answer. *)
Record World : Type := {
  calls : list Call;
  timers : list Timer;
  nextTimerId : Z;
  redeployAccount_outcome : BaseWalletAccount -> @Completion Exn RedeployResult;
  updateDeployTx_outcome : Account -> string -> @Completion Exn unit
}.

Definition with_calls (w : World) (cs : list Call) : World :=
  {| calls := cs;
     timers := timers w;
     nextTimerId := nextTimerId w;
     redeployAccount_outcome := redeployAccount_outcome w;
     updateDeployTx_outcome := updateDeployTx_outcome w |}.

Definition with_timers (w : World) (ts : list Timer) (next : Z) : World :=
  {| calls := calls w;
     timers := ts;
     nextTimerId := next;
     redeployAccount_outcome := redeployAccount_outcome w;
     updateDeployTx_outcome := updateDeployTx_outcome w |}.

(** State and exceptions; the state survives a throw. *)
Definition M (A : Type) : Type := World -> @Completion Exn A * World.

Definition ret {A : Type} (a : A) : M A := fun w => (Normal a, w).

Definition bind {A B : Type} (m : M A) (k : A -> M B) : M B :=
  fun w =>
    match m w with
    | (Normal a, w') => k a w'
    | (Throw e, w') => (Throw e, w')
    end.

(** [try { body } catch { handler }] *)
Definition try_catch {A : Type} (body : M A) (handler : Exn -> M A) : M A :=
  fun w =>
    match body w with
    | (Normal a, w') => (Normal a, w')
    | (Throw e, w') => handler e w'
    end.

Definition record_call (c : Call) : M unit :=
  fun w => (Normal tt, with_calls w (calls w ++ [c])).

End Model.

Declare Scope monad_scope.
Delimit Scope monad_scope with monad.
Notation "x <- m ;; k" := (bind m (fun x => k))
  (at level 61, m at next level, right associativity) : monad_scope.
Notation "m ;; k" := (bind m (fun _ => k))
  (at level 61, right associativity) : monad_scope.
Local Open Scope monad_scope.

Section Operations.
Context `{C : Collaborators}.

(** [navigate(to)] *)
Definition navigate (nav : FnId) (to : string) : M unit :=
  record_call (CallNavigate nav to).

(** [updateLastShownNetworkUpgradeMessage()] *)
Definition updateLastShownNetworkUpgradeMessage : M unit :=
  record_call CallUpdateLastShown.

(** [connectAccount(account)] *)
Definition connectAccount (account : Account) : M unit :=
  record_call (CallConnectAccount account).

(** [mutate(data)], bound to the key of the [useSWR] call *)
Definition mutate (mut : FnId) (data : bool) : M unit :=
  record_call (CallMutate mut data).

(** [setTimeout(callback, delay)]: a fresh handle, one more pending timer *)
Definition setTimeout (callback : Action) (delay : Z) : M Z :=
  fun w =>
    let id := nextTimerId w in
    (Normal id,
     with_timers w
       (timers w ++ [{| timer_id := id; timer_callback := callback; timer_delay := delay |}])
       (id + 1)).

(** [clearTimeout(id)] *)
Definition clearTimeout (id : Z) : M unit :=
  fun w =>
    (Normal tt,
     with_timers w (filter (fun t => negb (timer_id t =? id)%Z) (timers w)) (nextTimerId w)).

(** [await redeployAccount(data)] *)
Definition redeployAccount (data : BaseWalletAccount) : M RedeployResult :=
  fun w =>
    (redeployAccount_outcome w data,
     with_calls w (calls w ++ [CallRedeployAccount data])).

(** [account.updateDeployTx(deployTransaction)] *)
Definition updateDeployTx (account : Account) (deployTransaction : string) : M unit :=
  fun w =>
    (updateDeployTx_outcome w account deployTransaction,
     with_calls w (calls w ++ [CallUpdateDeployTx account deployTransaction])).

(* ===================================================================== *)
(** ** The redeploy callback *)
(* ===================================================================== *)

(** [onRedeploy]: the conversion of the account happens before the [try];
    the service call and the update of the account are inside it, and the
    handler is empty. *)
Definition onRedeploy (account : Account) : M unit :=
  let data := toBaseWalletAccount account in
  try_catch
    (result <- redeployAccount data ;;
     updateDeployTx account (txHash result))
    (fun _ => ret tt).

End Operations.

(* ===================================================================== *)
(** ** Hook values and the JSX tree *)
(* ===================================================================== *)

Section Render.
Context `{C : Collaborators}.

(** The values the hooks hand to one render, under the names the component
    binds them to.  [useNavigate] and [swrMutate] are the identities of the
    functions [navigate] and [mutate]; [swrData] is the cache the [useSWR]
    call reads its [data] from; an absent [feeTokenBalance], [error] or cache
    entry is [undefined]. *)
Record Hooks : Type := {
  useNavigate : FnId;
  location_pathname : string;
  status : AccountStatus;
  pendingTransactions : list Transaction;
  accountNames : AccountNames;
  isBackupRequired : bool;
  currencyDisplayEnabled : bool;
  transactionsBeforeReview : Z;
  userHasReviewed : bool;
  network : Network;
  shouldShowNetworkUpgradeMessage : bool;
  feeTokenBalance : option Z;
  isValidating : bool;
  error : option FetchError;
  tokenDetails : TokenDetails;
  tokenDetailsIsInitialising : bool;
  swrData : SwrKey -> option bool;
  swrMutate : FnId;
  accountIsDeployed : bool
}.

(** JSX elements, one constructor per component used, with the props the
    file passes.  A child slot holds an element, or [None] where the
    expression [cond && <X />] evaluates to [false] and nothing is shown.
    The [fallback] of an error boundary is a prop, not a child. *)
#[warnings="-register-all"] Inductive Element : Type :=
| Flex (direction data_testid : string) (children : list (option Element))
| VStack (spacing mb : Z) (children : list (option Element))
| AccountTokensHeader (status_ : AccountStatus) (account : Account)
    (accountName : string) (onRedeploy_ : M unit)
| AccountTokensButtons (account : Account)
| CellStack (py : Z) (children : list (option Element))
| StatusMessageBannerContainer
| MigrationBanner
| RecoveryBanner
| UpgradeBanner (canNotPay : bool) (to : string) (state_from : option string)
| TokenListMulticall (variant : string) (showNewTokenButton : bool)
| ErrorBoundary (fallback : Element) (children : list (option Element))
| ErrorBoundaryFallbackWithCopyError (error_ : option FetchError) (message : string)
| TokenList (showTitle isValidating_ : bool) (tokenList : TokenDetails)
    (variant : string) (children : list (option Element))
| NewTokenButton (isLoading : bool).

(** [cond && <X />] *)
Definition when (cond : bool) (e : Element) : option Element :=
  if cond then Some e else None.

(** [pendingTransactions.length > 0] *)
Definition hasPendingTransactions (h : Hooks) : bool :=
  (0 <? List.length (pendingTransactions h))%nat.

(** [data: needsUpgrade = false] of the [useSWR] call: the cache entry under
    the key of this account and network, [false] while it is [undefined]. *)
Definition needsUpgrade (account : Account) (h : Hooks) : bool :=
  match swrData h (getAccountIdentifier account,
                   accountClassHash (network h),
                   "showUpgradeBanner") with
  | Some data => data
  | None => false
  end.

(** [balance?.gt(n)] and [balance?.lte(n)]: [undefined] on an absent balance *)
Definition optional_gt (balance : option Z) (n : Z) : option bool :=
  option_map (fun b => (b >? n)%Z) balance.

Definition optional_lte (balance : option Z) (n : Z) : option bool :=
  option_map (fun b => (b <=? n)%Z) balance.

(** [a && b] where [a] is a boolean and [b] a boolean or [undefined] *)
Definition js_and (a : bool) (b : option bool) : option bool :=
  if a then b else Some false.

(** [Boolean(v)] on a boolean or [undefined] *)
Definition Boolean (v : option bool) : bool :=
  match v with
  | Some b => b
  | None => false
  end.

Definition showUpgradeBanner (account : Account) (h : Hooks) : bool :=
  Boolean (js_and (needsUpgrade account h)
             (js_and (negb (hasPendingTransactions h))
                (optional_gt (feeTokenBalance h) 0))).

Definition showNoBalanceForUpgrade (account : Account) (h : Hooks) : bool :=
  Boolean (js_and (needsUpgrade account h)
             (js_and (negb (hasPendingTransactions h))
                (optional_lte (feeTokenBalance h) 0))).

Definition showBackupBanner (account : Account) (h : Hooks) : bool :=
  isBackupRequired h && negb (showUpgradeBanner account h).

Definition tokenListVariant (h : Hooks) : string :=
  if currencyDisplayEnabled h then "default" else "no-currency".

Definition fetchingTokensMessage : string :=
  "Sorry, an error occurred fetching tokens".

(** The [return (...)] of the component. *)
Definition render (account : Account) (h : Hooks) : Element :=
  Flex "column" "account-tokens"
    [ Some (VStack 6 6
        [ Some (AccountTokensHeader (status h) account
                  (getAccountName account (accountNames h))
                  (onRedeploy account));
          Some (AccountTokensButtons account) ]);
      Some (CellStack 0
        [ Some StatusMessageBannerContainer;
          when (isDeprecated account) MigrationBanner;
          when (showBackupBanner account h) RecoveryBanner;
          when (showUpgradeBanner account h)
            (UpgradeBanner false routes_accountUpgradeV4 (Some (location_pathname h)));
          when (showNoBalanceForUpgrade account h)
            (UpgradeBanner true routes_funding None);
          Some (TokenListMulticall (tokenListVariant h) true) ]);
      when (accountIsDeployed h)
        (ErrorBoundary
           (ErrorBoundaryFallbackWithCopyError None fetchingTokensMessage)
           [ Some
               match error h with
               | Some err =>
                   ErrorBoundaryFallbackWithCopyError (Some err) fetchingTokensMessage
               | None =>
                   TokenList (hasPendingTransactions h) (isValidating h)
                     (tokenDetails h) (tokenListVariant h)
                     [ Some (NewTokenButton (tokenDetailsIsInitialising h)) ]
               end ]) ].

(** What the error boundary wraps: the fallback carrying the error when the
    token-balance hook reports one, the token list otherwise. *)
Definition tokensOrError (h : Hooks) : Element :=
  match error h with
  | Some err => ErrorBoundaryFallbackWithCopyError (Some err) fetchingTokensMessage
  | None =>
      TokenList (hasPendingTransactions h) (isValidating h) (tokenDetails h)
        (tokenListVariant h) [Some (NewTokenButton (tokenDetailsIsInitialising h))]
  end.

(** The elements a tree shows, parents before children, in document order.
    The [fallback] prop of an error boundary is not among them: the boundary
    shows it only after catching an error of a descendant. *)
Fixpoint rendered (e : Element) : list Element :=
  let slots :=
    flat_map (fun slot => match slot with Some c => rendered c | None => [] end) in
  e :: match e with
       | Flex _ _ cs => slots cs
       | VStack _ _ cs => slots cs
       | CellStack _ cs => slots cs
       | ErrorBoundary _ cs => slots cs
       | TokenList _ _ _ _ cs => slots cs
       | _ => []
       end.

(** The elements of a tree that are below an error boundary. *)
Fixpoint guarded (e : Element) : list Element :=
  let slots (f : Element -> list Element) :=
    flat_map (fun slot => match slot with Some c => f c | None => [] end) in
  match e with
  | Flex _ _ cs => slots guarded cs
  | VStack _ _ cs => slots guarded cs
  | CellStack _ cs => slots guarded cs
  | ErrorBoundary _ cs => slots rendered cs
  | TokenList _ _ _ _ cs => slots guarded cs
  | _ => []
  end.

Definition isMigrationBanner (e : Element) : bool :=
  match e with MigrationBanner => true | _ => false end.

Definition isRecoveryBanner (e : Element) : bool :=
  match e with RecoveryBanner => true | _ => false end.

(** the banner that offers the upgrade *)
Definition isUpgradeBanner (e : Element) : bool :=
  match e with UpgradeBanner canNotPay _ _ => negb canNotPay | _ => false end.

(** the banner shown when the upgrade cannot be paid for *)
Definition isNoBalanceBanner (e : Element) : bool :=
  match e with UpgradeBanner canNotPay _ _ => canNotPay | _ => false end.

Definition isErrorBoundary (e : Element) : bool :=
  match e with ErrorBoundary _ _ => true | _ => false end.

Definition isTokenList (e : Element) : bool :=
  match e with TokenList _ _ _ _ _ => true | _ => false end.

Definition isCopyErrorFallback (e : Element) : bool :=
  match e with ErrorBoundaryFallbackWithCopyError _ _ => true | _ => false end.

(** The elements of a given kind a tree shows. *)
Definition shown (kind : Element -> bool) (tree : Element) : list Element :=
  filter kind (rendered tree).

Definition isHeader (e : Element) : bool :=
  match e with AccountTokensHeader _ _ _ _ => true | _ => false end.

Definition isButtons (e : Element) : bool :=
  match e with AccountTokensButtons _ => true | _ => false end.

Definition isStatusMessage (e : Element) : bool :=
  match e with StatusMessageBannerContainer => true | _ => false end.

Definition isTokenListMulticall (e : Element) : bool :=
  match e with TokenListMulticall _ _ => true | _ => false end.

(** The [variant] prop of the two token-list components. *)
Definition variant_of (e : Element) : option string :=
  match e with
  | TokenListMulticall variant _ => Some variant
  | TokenList _ _ _ variant _ => Some variant
  | _ => None
  end.

End Render.

(* ===================================================================== *)
(** ** Effects *)
(* ===================================================================== *)

Section Effects.
Context `{C : Collaborators}.

(** What React keeps for one mounted instance of the component between
    renders: the [hadPendingTransactions] ref, the dependency array of the
    last run of each of the four effects ([None] before the first render),
    and the [timeoutId] captured by the cleanup function the first effect
    returned ([None] while that variable is [undefined]). *)
Record Instance : Type := {
  hadPendingTransactions : bool;
  review_deps : option (FnId * Z * bool);
  review_timeoutId : option Z;
  pending_deps : option (FnId * bool);
  connect_deps : option Account;
  upgradeMessage_deps : option bool
}.

(** Before the first render: [useRef(false)], no effect has run. *)
Definition mounting : Instance :=
  {| hadPendingTransactions := false;
     review_deps := None;
     review_timeoutId := None;
     pending_deps := None;
     connect_deps := None;
     upgradeMessage_deps := None |}.

(** An effect runs after the first render and after every render in which
    an entry of its dependency array differs from the previous run's. *)
Definition depsChanged {D : Type} (same : D -> D -> bool) (prev : option D) (cur : D) : bool :=
  match prev with
  | None => true
  | Some p => negb (same p cur)
  end.

Definition same_review_deps (p q : FnId * Z * bool) : bool :=
  let '(nav1, n1, r1) := p in
  let '(nav2, n2, r2) := q in
  Nat.eqb nav1 nav2 && (n1 =? n2)%Z && Bool.eqb r1 r2.

Definition same_pending_deps (p q : FnId * bool) : bool :=
  Nat.eqb (fst p) (fst q) && Bool.eqb (snd p) (snd q).

Definition same_account (a b : Account) : bool :=
  if Account_eq_dec a b then true else false.

(** [navigate, transactionsBeforeReview, userHasReviewed] *)
Definition reviewDeps (h : Hooks) : FnId * Z * bool :=
  (useNavigate h, transactionsBeforeReview h, userHasReviewed h).

(** [mutate, hasPendingTransactions] *)
Definition pendingDeps (h : Hooks) : FnId * bool :=
  (swrMutate h, hasPendingTransactions h).

(** The first effect.  Its result is the [timeoutId] its cleanup captures. *)
Definition reviewEffect (h : Hooks) : M (option Z) :=
  if negb (userHasReviewed h) && (transactionsBeforeReview h =? 0)%Z then
    timeoutId <- setTimeout (NavigateTo (useNavigate h) routes_userReview) 1000 ;;
    ret (Some timeoutId)
  else
    ret None.

(** [() => timeoutId && clearTimeout(timeoutId)]: nothing is cleared when
    [timeoutId] is [undefined] or [0]. *)
Definition reviewCleanup (timeoutId : option Z) : M unit :=
  match timeoutId with
  | Some id => if (id =? 0)%Z then ret tt else clearTimeout id
  | None => ret tt
  end.

(** The second effect, on the value [current] of the ref; its result is the
    value the ref holds afterwards. *)
Definition pendingEffect (h : Hooks) (current : bool) : M bool :=
  let current1 := if hasPendingTransactions h then true else current in
  if current1 && Bool.eqb (hasPendingTransactions h) false then
    mutate (swrMutate h) false ;;
    ret false
  else
    ret current1.

(** The third effect. *)
Definition connectEffect (account : Account) : M unit :=
  connectAccount account.

(** The fourth effect. *)
Definition upgradeMessageEffect (h : Hooks) : M unit :=
  if shouldShowNetworkUpgradeMessage h then
    updateLastShownNetworkUpgradeMessage ;;
    navigate (useNavigate h) routes_networkUpgradeV4
  else
    ret tt.

(** [useEffect(effect, deps)] for each of the four effects: the effect runs
    when its dependencies changed, after the cleanup of its previous run
    where it has one. *)
Definition useReviewEffect (h : Hooks) (inst : Instance) : M (option Z) :=
  if depsChanged same_review_deps (review_deps inst) (reviewDeps h) then
    reviewCleanup (review_timeoutId inst) ;;
    reviewEffect h
  else
    ret (review_timeoutId inst).

Definition usePendingEffect (h : Hooks) (inst : Instance) : M bool :=
  if depsChanged same_pending_deps (pending_deps inst) (pendingDeps h) then
    pendingEffect h (hadPendingTransactions inst)
  else
    ret (hadPendingTransactions inst).

Definition useConnectEffect (account : Account) (inst : Instance) : M unit :=
  if depsChanged same_account (connect_deps inst) account then
    connectEffect account
  else
    ret tt.

Definition useUpgradeMessageEffect (h : Hooks) (inst : Instance) : M unit :=
  if depsChanged Bool.eqb (upgradeMessage_deps inst) (shouldShowNetworkUpgradeMessage h) then
    upgradeMessageEffect h
  else
    ret tt.

(** The effects of one render, in the order of their [useEffect] calls.
    Only the first effect has a cleanup, so running it right before the
    effect is the order React uses (cleanups of the re-run effects, then
    their bodies). *)
Definition commit (account : Account) (h : Hooks) (inst : Instance) : M Instance :=
  timeoutId <- useReviewEffect h inst ;;
  current <- usePendingEffect h inst ;;
  useConnectEffect account inst ;;
  useUpgradeMessageEffect h inst ;;
  ret {| hadPendingTransactions := current;
         review_deps := Some (reviewDeps h);
         review_timeoutId := timeoutId;
         pending_deps := Some (pendingDeps h);
         connect_deps := Some account;
         upgradeMessage_deps := Some (shouldShowNetworkUpgradeMessage h) |}.

(** Unmounting runs the cleanup of the first effect. *)
Definition unmount (inst : Instance) : M unit :=
  reviewCleanup (review_timeoutId inst).

(** One render of the component: the JSX tree, then the effects. *)
Definition AccountTokens (account : Account) (h : Hooks) (inst : Instance)
  : M (Element * Instance) :=
  let tree := render account h in
  inst' <- commit account h inst ;;
  ret (tree, inst').

(** A sequence of renders of one mounted instance. *)
Fixpoint renders (rs : list (Account * Hooks)) (inst : Instance) : M Instance :=
  match rs with
  | [] => ret inst
  | (account, h) :: rs' =>
      r <- AccountTokens account h inst ;;
      renders rs' (snd r)
  end.

(** The calls a computation adds to the log. *)
Definition calls_of {A : Type} (m : M A) (w : World) : list Call :=
  skipn (List.length (calls w)) (calls (snd (m w))).

(** [runs m w a added ts next]: started in [w], [m] ends normally with [a],
    appends [added] to the log and leaves [ts] as the timer table and [next]
    as the next timer handle. *)
Definition runs {A : Type} (m : M A) (w : World) (a : A)
    (added : list Call) (ts : list Timer) (next : Z) : Prop :=
  fst (m w) = Normal a /\
  calls (snd (m w)) = calls w ++ added /\
  timers (snd (m w)) = ts /\
  nextTimerId (snd (m w)) = next.

(** The timer the first effect sets up in a render with hook values [h]. *)
Definition reviewTimer (id : Z) (h : Hooks) : Timer :=
  {| timer_id := id;
     timer_callback := NavigateTo (useNavigate h) routes_userReview;
     timer_delay := 1000 |}.

(** Timer handles are positive and not reused: the pending timers carry
    handles below the next one. *)
Definition timers_ok (w : World) : Prop :=
  0 < nextTimerId w /\
  Forall (fun t => 0 < timer_id t < nextTimerId w) (timers w).

(** What holds of the first effect between renders, for an instance
    mounted in world [w0]: either its cleanup holds the handle of the one
    timer the component added, set up under dependencies that satisfy the
    effect's condition, or it holds none and the component has no timer. *)
Definition review_inv (w0 : World) (inst : Instance) (w : World) : Prop :=
  nextTimerId w0 <= nextTimerId w /\
  match review_timeoutId inst with
  | Some id =>
      nextTimerId w0 <= id < nextTimerId w /\
      exists nav,
        review_deps inst = Some (nav, 0, false) /\
        timers w =
          timers w0 ++
          [{| timer_id := id;
              timer_callback := NavigateTo nav routes_userReview;
              timer_delay := 1000 |}]
  | None =>
      timers w = timers w0 /\
      match review_deps inst with
      | Some (_, remaining, reviewed) => negb reviewed && (remaining =? 0) = false
      | None => True
      end
  end.

(** The two actions of the fourth effect: the update of the last-shown mark
    and the navigation to the network-upgrade route. *)
Definition isUpgradeMessageCall (c : Call) : bool :=
  match c with
  | CallUpdateLastShown => true
  | CallNavigate _ to => String.eqb to routes_networkUpgradeV4
  | _ => false
  end.

(** The callback [() => navigate(routes.userReview())] handed to
    [setTimeout], when it is run. *)
Definition runAction (a : Action) : M unit :=
  match a with
  | NavigateTo nav to => navigate nav to
  end.

(** The expiry of the timer with handle [id]: the browser drops it from the
    timer table and runs its callback; a handle that is not pending (never
    set, cleared, or already expired) does nothing. *)
Definition fireTimer (id : Z) : M unit :=
  fun w =>
    match find (fun t => (timer_id t =? id)%Z) (timers w) with
    | Some t =>
        runAction (timer_callback t)
          (with_timers w
             (filter (fun t => negb (timer_id t =? id)%Z) (timers w))
             (nextTimerId w))
    | None => (Normal tt, w)
    end.

Definition isMutateCall (c : Call) : bool :=
  match c with CallMutate _ _ => true | _ => false end.

Definition isConnectCall (c : Call) : bool :=
  match c with CallConnectAccount _ => true | _ => false end.

(** The calls the second, third and fourth effect make in a render with
    hook values [h], by what the instance kept from the previous render. *)
Definition pendingCalls (h : Hooks) (inst : Instance) : list Call :=
  if depsChanged same_pending_deps (pending_deps inst) (pendingDeps h)
     && hadPendingTransactions inst
     && negb (hasPendingTransactions h)
  then [CallMutate (swrMutate h) false]
  else [].

Definition connectCalls (account : Account) (inst : Instance) : list Call :=
  if depsChanged same_account (connect_deps inst) account
  then [CallConnectAccount account]
  else [].

Definition upgradeMessageCalls (h : Hooks) (inst : Instance) : list Call :=
  if depsChanged Bool.eqb (upgradeMessage_deps inst) (shouldShowNetworkUpgradeMessage h)
     && shouldShowNetworkUpgradeMessage h
  then [CallUpdateLastShown; CallNavigate (useNavigate h) routes_networkUpgradeV4]
  else [].

(** Whenever the second effect has run, the ref holds the
    [hasPendingTransactions] of that run. *)
Definition ref_tracks_deps (inst : Instance) : Prop :=
  match pending_deps inst with
  | Some deps => hadPendingTransactions inst = snd deps
  | None => True
  end.

(** The instance right after a render of [account] with hook values [h]:
    every dependency array is the one of that render and the ref holds its
    [hasPendingTransactions]. *)
Definition after_render (account : Account) (h : Hooks) (inst : Instance) : Prop :=
  hadPendingTransactions inst = hasPendingTransactions h /\
  review_deps inst = Some (reviewDeps h) /\
  pending_deps inst = Some (pendingDeps h) /\
  connect_deps inst = Some account /\
  upgradeMessage_deps inst = Some (shouldShowNetworkUpgradeMessage h).

End Effects.

(* ===================================================================== *)
(** ** A sample wallet *)
(* ===================================================================== *)

(** Concrete collaborators for running the model: accounts, networks and
    errors are strings, an account counts as deprecated when its address is
    ["0xold"]. *)
Module Sample.

#[export] Instance wallet : Collaborators := {|
  Account := string;
  Account_eq_dec := string_dec;
  BaseWalletAccount := string;
  AccountStatus := string;
  AccountNames := list (string * string);
  Transaction := string;
  TokenDetails := list (string * Z);
  Network := string;
  ClassHash := string;
  FetchError := string;
  Exn := string;
  toBaseWalletAccount := fun account => account;
  getAccountIdentifier := fun account => account;
  isDeprecated := fun account => String.eqb account "0xold";
  getAccountName := fun account names =>
    match find (fun entry => String.eqb (fst entry) account) names with
    | Some entry => snd entry
    | None => "Unnamed account"
    end;
  accountClassHash := fun network => network;
  routes_userReview := "/user-review";
  routes_networkUpgradeV4 := "/network-upgrade-v4";
  routes_accountUpgradeV4 := "/account/upgrade-v4";
  routes_funding := "/funding"
|}.

Definition account : Account := "0xabc".

(** A deployed account at rest: nothing pending, nothing to upgrade, the
    user has already left a review. *)
Definition hooks : Hooks :=
  {| useNavigate := 1%nat;
     location_pathname := "/account/tokens";
     status := "CONNECTED";
     pendingTransactions := [];
     accountNames := [("0xabc", "Main")];
     isBackupRequired := false;
     currencyDisplayEnabled := true;
     transactionsBeforeReview := 3;
     userHasReviewed := true;
     network := "0xclasshash";
     shouldShowNetworkUpgradeMessage := false;
     feeTokenBalance := Some 10;
     isValidating := false;
     error := None;
     tokenDetails := [("ETH", 10)];
     tokenDetailsIsInitialising := false;
     swrData := fun _ => None;
     swrMutate := 2%nat;
     accountIsDeployed := true |}.

Definition with_upgrade (h : Hooks) (data : option bool) (balance : option Z) : Hooks :=
  {| useNavigate := useNavigate h;
     location_pathname := location_pathname h;
     status := status h;
     pendingTransactions := pendingTransactions h;
     accountNames := accountNames h;
     isBackupRequired := isBackupRequired h;
     currencyDisplayEnabled := currencyDisplayEnabled h;
     transactionsBeforeReview := transactionsBeforeReview h;
     userHasReviewed := userHasReviewed h;
     network := network h;
     shouldShowNetworkUpgradeMessage := shouldShowNetworkUpgradeMessage h;
     feeTokenBalance := balance;
     isValidating := isValidating h;
     error := error h;
     tokenDetails := tokenDetails h;
     tokenDetailsIsInitialising := tokenDetailsIsInitialising h;
     swrData := fun _ => data;
     swrMutate := swrMutate h;
     accountIsDeployed := accountIsDeployed h |}.

Definition with_tokens (h : Hooks) (err : option string) (deployed : bool) : Hooks :=
  {| useNavigate := useNavigate h;
     location_pathname := location_pathname h;
     status := status h;
     pendingTransactions := pendingTransactions h;
     accountNames := accountNames h;
     isBackupRequired := isBackupRequired h;
     currencyDisplayEnabled := currencyDisplayEnabled h;
     transactionsBeforeReview := transactionsBeforeReview h;
     userHasReviewed := userHasReviewed h;
     network := network h;
     shouldShowNetworkUpgradeMessage := shouldShowNetworkUpgradeMessage h;
     feeTokenBalance := feeTokenBalance h;
     isValidating := isValidating h;
     error := err;
     tokenDetails := tokenDetails h;
     tokenDetailsIsInitialising := tokenDetailsIsInitialising h;
     swrData := swrData h;
     swrMutate := swrMutate h;
     accountIsDeployed := deployed |}.

Definition with_review (h : Hooks) (reviewed : bool) (remaining : Z) : Hooks :=
  {| useNavigate := useNavigate h;
     location_pathname := location_pathname h;
     status := status h;
     pendingTransactions := pendingTransactions h;
     accountNames := accountNames h;
     isBackupRequired := isBackupRequired h;
     currencyDisplayEnabled := currencyDisplayEnabled h;
     transactionsBeforeReview := remaining;
     userHasReviewed := reviewed;
     network := network h;
     shouldShowNetworkUpgradeMessage := shouldShowNetworkUpgradeMessage h;
     feeTokenBalance := feeTokenBalance h;
     isValidating := isValidating h;
     error := error h;
     tokenDetails := tokenDetails h;
     tokenDetailsIsInitialising := tokenDetailsIsInitialising h;
     swrData := swrData h;
     swrMutate := swrMutate h;
     accountIsDeployed := accountIsDeployed h |}.

Definition with_notice (h : Hooks) (shouldShow : bool) (validating : bool) : Hooks :=
  {| useNavigate := useNavigate h;
     location_pathname := location_pathname h;
     status := status h;
     pendingTransactions := pendingTransactions h;
     accountNames := accountNames h;
     isBackupRequired := isBackupRequired h;
     currencyDisplayEnabled := currencyDisplayEnabled h;
     transactionsBeforeReview := transactionsBeforeReview h;
     userHasReviewed := userHasReviewed h;
     network := network h;
     shouldShowNetworkUpgradeMessage := shouldShow;
     feeTokenBalance := feeTokenBalance h;
     isValidating := validating;
     error := error h;
     tokenDetails := tokenDetails h;
     tokenDetailsIsInitialising := tokenDetailsIsInitialising h;
     swrData := swrData h;
     swrMutate := swrMutate h;
     accountIsDeployed := accountIsDeployed h |}.

(** A world with an empty log and no timer, in which the background service
    answers every redeploy request the given way. *)
Definition world (answer : @Completion string RedeployResult) : World :=
  {| calls := [];
     timers := [];
     nextTimerId := 1;
     redeployAccount_outcome := fun _ => answer;
     updateDeployTx_outcome := fun _ _ => Normal tt |}.

Definition offline : World := world (Throw "background service unreachable").

Definition online : World := world (Normal {| txHash := "0x7e57" |}).

End Sample.

(* ===================================================================== *)
(** ** Properties of the redeploy callback *)
(* ===================================================================== *)

Section RedeployProperties.
Context `{C : Collaborators}.

Lemma skipn_length_app {A : Type} (l l' : list A) :
  skipn (List.length l) (l ++ l') = l'.
Proof.
  induction l as [| x l IH]; simpl; auto.
Qed.

Lemma calls_of_extends {A : Type} (m : M A) (w : World) (added : list Call) :
  calls (snd (m w)) = calls w ++ added ->
  calls_of m w = added.
Proof.
  intros H. unfold calls_of. rewrite H. apply skipn_length_app.
Qed.

Lemma with_calls_twice (w : World) (cs cs' : list Call) :
  with_calls (with_calls w cs) cs' = with_calls w cs'.
Proof. reflexivity. Qed.

(** What [onRedeploy] does, by the answer of the background service: it
    always ends normally; the log gains the service call, followed by the
    update of the account exactly when the service answered. *)
Lemma onRedeploy_run (account : Account) (w : World) :
  onRedeploy account w =
    (Normal tt,
     with_calls w
       (calls w ++
        CallRedeployAccount (toBaseWalletAccount account) ::
        match redeployAccount_outcome w (toBaseWalletAccount account) with
        | Normal result => [CallUpdateDeployTx account (txHash result)]
        | Throw _ => []
        end)).
Proof.
  unfold onRedeploy, try_catch, bind, redeployAccount, updateDeployTx, ret.
  destruct (redeployAccount_outcome w (toBaseWalletAccount account)) as [result | e];
    simpl.
  - rewrite <- app_assoc. simpl.
    destruct (updateDeployTx_outcome w account (txHash result)) as [[] | e'];
      reflexivity.
  - reflexivity.
Qed.

(** C1. For every account: when the [redeployAccount] call of [onRedeploy]
    throws, [onRedeploy] ends normally, [account.updateDeployTx] is not
    called and the world is the one before with only the service call added
    to the log; when [redeployAccount] succeeds, [account.updateDeployTx] is
    called with the returned [txHash], right after the service call. *)
Theorem onRedeploy_swallows_service_failure (account : Account) (w : World) :
  (forall e : Exn,
     redeployAccount_outcome w (toBaseWalletAccount account) = Throw e ->
     fst (onRedeploy account w) = Normal tt /\
     (forall a tx, ~ In (CallUpdateDeployTx a tx) (calls_of (onRedeploy account) w)) /\
     snd (onRedeploy account w) =
       with_calls w (calls w ++ [CallRedeployAccount (toBaseWalletAccount account)])) /\
  (forall result : RedeployResult,
     redeployAccount_outcome w (toBaseWalletAccount account) = Normal result ->
     fst (onRedeploy account w) = Normal tt /\
     calls_of (onRedeploy account) w =
       [CallRedeployAccount (toBaseWalletAccount account);
        CallUpdateDeployTx account (txHash result)]).
Proof.
  split.
  - intros e He.
    assert (Hrun := onRedeploy_run account w). rewrite He in Hrun.
    repeat split.
    + now rewrite Hrun.
    + intros a tx Hin.
      rewrite (calls_of_extends (onRedeploy account) w
                 [CallRedeployAccount (toBaseWalletAccount account)]) in Hin.
      * destruct Hin as [Hin | []]. discriminate Hin.
      * now rewrite Hrun.
    + now rewrite Hrun.
  - intros result Hr.
    assert (Hrun := onRedeploy_run account w). rewrite Hr in Hrun.
    split.
    + now rewrite Hrun.
    + apply calls_of_extends. now rewrite Hrun.
Qed.

End RedeployProperties.

(** The sample wallet with the background service unreachable, then
    reachable. *)
Lemma onRedeploy_swallows_service_failure_witness :
  (fst (onRedeploy (C := Sample.wallet) Sample.account Sample.offline) = Normal tt /\
   calls (snd (onRedeploy (C := Sample.wallet) Sample.account Sample.offline)) =
     [CallRedeployAccount (C := Sample.wallet) "0xabc"]) /\
  (fst (onRedeploy (C := Sample.wallet) Sample.account Sample.online) = Normal tt /\
   calls_of (onRedeploy (C := Sample.wallet) Sample.account) Sample.online =
     [CallRedeployAccount (C := Sample.wallet) "0xabc";
      CallUpdateDeployTx (C := Sample.wallet) "0xabc" "0x7e57"]).
Proof.
  split.
  - destruct (onRedeploy_swallows_service_failure (C := Sample.wallet)
                Sample.account Sample.offline) as [Hthrow _].
    destruct (Hthrow "background service unreachable" eq_refl) as (Hend & _ & Hworld).
    split; [exact Hend | rewrite Hworld; reflexivity].
  - destruct (onRedeploy_swallows_service_failure (C := Sample.wallet)
                Sample.account Sample.online) as [_ Hok].
    exact (Hok {| txHash := "0x7e57" |} eq_refl).
Defined.

(* ===================================================================== *)
(** ** Properties of the rendered tree *)
(* ===================================================================== *)

(** Splits a goal about [render] by the conditions of its slots. *)
Ltac render_cases account h :=
  unfold shown, render, when;
  destruct (isDeprecated account);
  destruct (showBackupBanner account h);
  destruct (showUpgradeBanner account h);
  destruct (showNoBalanceForUpgrade account h);
  destruct (accountIsDeployed h);
  destruct (error h);
  simpl.

Section BannerProperties.
Context `{C : Collaborators}.

Lemma hasPendingTransactions_false (h : Hooks) :
  hasPendingTransactions h = false <-> pendingTransactions h = [].
Proof.
  unfold hasPendingTransactions.
  destruct (pendingTransactions h); cbn; split; intros H;
    solve [reflexivity | discriminate H].
Qed.

(** The condition of the upgrade banner, in words. *)
Lemma showUpgradeBanner_true (account : Account) (h : Hooks) :
  showUpgradeBanner account h = true <->
  needsUpgrade account h = true /\
  pendingTransactions h = [] /\
  exists balance, feeTokenBalance h = Some balance /\ 0 < balance.
Proof.
  unfold showUpgradeBanner, js_and, optional_gt, Boolean.
  rewrite <- hasPendingTransactions_false.
  destruct (needsUpgrade account h), (hasPendingTransactions h),
    (feeTokenBalance h) as [b |]; simpl; split;
    try (intros H; discriminate H);
    try (intros (H1 & H2 & _); discriminate);
    try (intros (_ & _ & b' & H & _); discriminate H).
  - intros H. repeat split. exists b. split; [reflexivity | lia].
  - intros (_ & _ & b' & Hb & Hpos). injection Hb as <-. lia.
Qed.

(** The condition of the no-balance banner, in words. *)
Lemma showNoBalanceForUpgrade_true (account : Account) (h : Hooks) :
  showNoBalanceForUpgrade account h = true <->
  needsUpgrade account h = true /\
  pendingTransactions h = [] /\
  exists balance, feeTokenBalance h = Some balance /\ balance <= 0.
Proof.
  unfold showNoBalanceForUpgrade, js_and, optional_lte, Boolean.
  rewrite <- hasPendingTransactions_false.
  destruct (needsUpgrade account h), (hasPendingTransactions h),
    (feeTokenBalance h) as [b |]; simpl; split;
    try (intros H; discriminate H);
    try (intros (H1 & H2 & _); discriminate);
    try (intros (_ & _ & b' & H & _); discriminate H).
  - intros H. repeat split. exists b. split; [reflexivity | lia].
  - intros (_ & _ & b' & Hb & Hpos). injection Hb as <-. lia.
Qed.

Lemma shown_upgrade_banner (account : Account) (h : Hooks) :
  shown isUpgradeBanner (render account h) =
    if showUpgradeBanner account h
    then [UpgradeBanner false routes_accountUpgradeV4 (Some (location_pathname h))]
    else [].
Proof. render_cases account h; reflexivity. Qed.

Lemma shown_no_balance_banner (account : Account) (h : Hooks) :
  shown isNoBalanceBanner (render account h) =
    if showNoBalanceForUpgrade account h
    then [UpgradeBanner true routes_funding None]
    else [].
Proof. render_cases account h; reflexivity. Qed.

Lemma shown_recovery_banner (account : Account) (h : Hooks) :
  shown isRecoveryBanner (render account h) =
    if showBackupBanner account h then [RecoveryBanner] else [].
Proof. render_cases account h; reflexivity. Qed.

Lemma shown_migration_banner (account : Account) (h : Hooks) :
  shown isMigrationBanner (render account h) =
    if isDeprecated account then [MigrationBanner] else [].
Proof. render_cases account h; reflexivity. Qed.

(** C3. For every combination of hook values, the upgrade banner is shown
    if and only if [needsUpgrade] is true, there is no pending transaction
    and the fee token balance is strictly greater than zero; the banner
    shown links to the account-upgrade route. *)
Theorem upgrade_banner_shown_iff (account : Account) (h : Hooks) :
  (shown isUpgradeBanner (render account h) <> [] <->
   needsUpgrade account h = true /\
   pendingTransactions h = [] /\
   exists balance, feeTokenBalance h = Some balance /\ 0 < balance) /\
  (forall e, In e (shown isUpgradeBanner (render account h)) ->
     e = UpgradeBanner false routes_accountUpgradeV4 (Some (location_pathname h))).
Proof.
  rewrite shown_upgrade_banner, <- showUpgradeBanner_true.
  destruct (showUpgradeBanner account h); simpl; split.
  - split; [reflexivity | discriminate].
  - intros e [<- | []]. reflexivity.
  - split; [intros H; now elim H | discriminate].
  - intros e [].
Qed.

(** C4. For every combination of hook values, the no-balance upgrade banner
    ([canNotPay]) is shown if and only if [needsUpgrade] is true, there is
    no pending transaction and the fee token balance is less than or equal
    to zero; the banner shown links to the funding route. *)
Theorem no_balance_banner_shown_iff (account : Account) (h : Hooks) :
  (shown isNoBalanceBanner (render account h) <> [] <->
   needsUpgrade account h = true /\
   pendingTransactions h = [] /\
   exists balance, feeTokenBalance h = Some balance /\ balance <= 0) /\
  (forall e, In e (shown isNoBalanceBanner (render account h)) ->
     e = UpgradeBanner true routes_funding None).
Proof.
  rewrite shown_no_balance_banner, <- showNoBalanceForUpgrade_true.
  destruct (showNoBalanceForUpgrade account h); simpl; split.
  - split; [reflexivity | discriminate].
  - intros e [<- | []]. reflexivity.
  - split; [intros H; now elim H | discriminate].
  - intros e [].
Qed.

(** C5. For every combination of hook values, the backup (recovery) banner
    is shown if and only if a backup is required and the upgrade banner is
    not shown. *)
Theorem recovery_banner_shown_iff (account : Account) (h : Hooks) :
  shown isRecoveryBanner (render account h) <> [] <->
  isBackupRequired h = true /\ shown isUpgradeBanner (render account h) = [].
Proof.
  rewrite shown_recovery_banner, shown_upgrade_banner.
  unfold showBackupBanner.
  destruct (isBackupRequired h), (showUpgradeBanner account h); simpl;
    intuition congruence.
Qed.

(** C6. For every account, the migration banner is shown if and only if
    [isDeprecated(account)] is true, whatever the hook values are. *)
Theorem migration_banner_shown_iff (account : Account) :
  (forall h : Hooks,
     shown isMigrationBanner (render account h) <> [] <-> isDeprecated account = true) /\
  (forall h h' : Hooks,
     shown isMigrationBanner (render account h) =
     shown isMigrationBanner (render account h')).
Proof.
  split.
  - intros h. rewrite shown_migration_banner.
    destruct (isDeprecated account); split; intros H;
      try reflexivity; try discriminate; now elim H.
  - intros h h'. now rewrite !shown_migration_banner.
Qed.

(** C10. In every render at most one of the two upgrade banners is shown,
    and when the fee token balance is [undefined] neither of them is shown,
    even if [needsUpgrade] is true. *)
Theorem upgrade_banners_exclusive (account : Account) (h : Hooks) :
  (List.length (shown isUpgradeBanner (render account h)) +
   List.length (shown isNoBalanceBanner (render account h)) <= 1)%nat /\
  (feeTokenBalance h = None ->
   shown isUpgradeBanner (render account h) = [] /\
   shown isNoBalanceBanner (render account h) = []).
Proof.
  rewrite shown_upgrade_banner, shown_no_balance_banner.
  unfold showUpgradeBanner, showNoBalanceForUpgrade, js_and, optional_gt,
    optional_lte, Boolean.
  destruct (needsUpgrade account h), (hasPendingTransactions h),
    (feeTokenBalance h) as [b |]; simpl; split;
    try (intros Hnone; solve [discriminate Hnone | split; reflexivity]);
    try lia.
  destruct (Z.gtb_spec b 0) as [Hgt | Hle], (Z.leb_spec b 0) as [Hle' | Hgt'];
    simpl; lia.
Qed.

End BannerProperties.

(** The sample wallet while the upgrade poller says yes and the fee balance
    is still loading. *)
Lemma upgrade_banners_exclusive_witness :
  shown (C := Sample.wallet) isUpgradeBanner
    (render Sample.account (Sample.with_upgrade Sample.hooks (Some true) None)) = [] /\
  shown (C := Sample.wallet) isNoBalanceBanner
    (render Sample.account (Sample.with_upgrade Sample.hooks (Some true) None)) = [].
Proof.
  apply (upgrade_banners_exclusive (C := Sample.wallet) Sample.account
           (Sample.with_upgrade Sample.hooks (Some true) None)).
  reflexivity.
Defined.

Section TokenListProperties.
Context `{C : Collaborators}.

Lemma shown_error_boundary (account : Account) (h : Hooks) :
  shown isErrorBoundary (render account h) =
    if accountIsDeployed h
    then [ErrorBoundary
            (ErrorBoundaryFallbackWithCopyError None fetchingTokensMessage)
            [Some (tokensOrError h)]]
    else [].
Proof. unfold tokensOrError. render_cases account h; reflexivity. Qed.

Lemma shown_copy_error_fallback (account : Account) (h : Hooks) :
  shown isCopyErrorFallback (render account h) =
    if accountIsDeployed h
    then match error h with
         | Some err => [ErrorBoundaryFallbackWithCopyError (Some err) fetchingTokensMessage]
         | None => []
         end
    else [].
Proof. render_cases account h; reflexivity. Qed.

Lemma shown_token_list (account : Account) (h : Hooks) :
  shown isTokenList (render account h) =
    if accountIsDeployed h
    then match error h with
         | Some _ => []
         | None => [tokensOrError h]
         end
    else [].
Proof. unfold tokensOrError. render_cases account h; reflexivity. Qed.

Lemma guarded_render (account : Account) (h : Hooks) :
  guarded (render account h) =
    if accountIsDeployed h then rendered (tokensOrError h) else [].
Proof. unfold tokensOrError. render_cases account h; reflexivity. Qed.

(** The multicall token list of the banner stack is shown in every render,
    outside the error boundary. *)
Remark token_list_multicall_unguarded (account : Account) (h : Hooks) :
  In (TokenListMulticall (tokenListVariant h) true) (rendered (render account h)) /\
  ~ In (TokenListMulticall (tokenListVariant h) true) (guarded (render account h)).
Proof.
  split.
  - render_cases account h; tauto.
  - rewrite guarded_render. unfold tokensOrError.
    destruct (accountIsDeployed h), (error h); simpl;
      intros Hin; repeat destruct Hin as [Hin | Hin]; discriminate || contradiction.
Qed.

(** C2, as the code has it.  In every render, a token list that is shown is
    below the error boundary, and the tree has at most one error boundary,
    the one whose fallback shows "Sorry, an error occurred fetching tokens"
    with the copy-error action; that boundary is part of the tree exactly
    when the account is deployed.  For a deployed account, an error of the
    token-balance hook puts the copy-error fallback, carrying the error, in
    the place of the token list, and without an error the token list is
    there.  For an account that is not deployed, neither the boundary, nor
    the token list, nor the fallback is shown, whatever the hook reports. *)
Theorem token_list_behind_error_boundary (account : Account) (h : Hooks) :
  (forall e, In e (shown isTokenList (render account h)) ->
     In e (guarded (render account h))) /\
  shown isErrorBoundary (render account h) =
    (if accountIsDeployed h
     then [ErrorBoundary
             (ErrorBoundaryFallbackWithCopyError None fetchingTokensMessage)
             [Some (tokensOrError h)]]
     else []) /\
  (accountIsDeployed h = true ->
   (forall err, error h = Some err ->
      shown isCopyErrorFallback (render account h) =
        [ErrorBoundaryFallbackWithCopyError (Some err) fetchingTokensMessage] /\
      guarded (render account h) =
        [ErrorBoundaryFallbackWithCopyError (Some err) fetchingTokensMessage] /\
      shown isTokenList (render account h) = []) /\
   (error h = None ->
      shown isCopyErrorFallback (render account h) = [] /\
      shown isTokenList (render account h) = [tokensOrError h])) /\
  (accountIsDeployed h = false ->
   shown isErrorBoundary (render account h) = [] /\
   shown isTokenList (render account h) = [] /\
   shown isCopyErrorFallback (render account h) = []).
Proof.
  rewrite shown_error_boundary, shown_copy_error_fallback, shown_token_list,
    guarded_render.
  split; [| split; [reflexivity | split]].
  - unfold tokensOrError.
    destruct (accountIsDeployed h), (error h); simpl; intros e Hin;
      try contradiction.
    destruct Hin as [<- | []]. now left.
  - intros Hdeployed. rewrite Hdeployed. split.
    + intros err Herr. unfold tokensOrError. rewrite Herr. repeat split.
    + intros Hnone. rewrite Hnone. split; reflexivity.
  - intros Hnot. rewrite Hnot. repeat split.
Qed.

End TokenListProperties.

(** The sample wallet, deployed, while the token-balance hook reports an
    error: the fallback stands where the token list would be. *)
Lemma token_list_behind_error_boundary_witness :
  shown (C := Sample.wallet) isCopyErrorFallback
    (render Sample.account (Sample.with_tokens Sample.hooks (Some "rpc timeout") true)) =
    [ErrorBoundaryFallbackWithCopyError (C := Sample.wallet) (Some "rpc timeout")
       "Sorry, an error occurred fetching tokens"] /\
  shown (C := Sample.wallet) isTokenList
    (render Sample.account (Sample.with_tokens Sample.hooks (Some "rpc timeout") true)) = [].
Proof.
  destruct (token_list_behind_error_boundary (C := Sample.wallet) Sample.account
              (Sample.with_tokens Sample.hooks (Some "rpc timeout") true))
    as (_ & _ & Hdeployed & _).
  destruct (Hdeployed eq_refl) as [Herror _].
  destruct (Herror "rpc timeout" eq_refl) as (Hfallback & _ & Hlist).
  split; assumption.
Defined.

(** C2, as stated, fails: the token-balance hook reports an error for an
    account that is not deployed, and the tree shows no copy-error fallback
    (and no error boundary). *)
Lemma error_of_undeployed_account_not_shown :
  error (Sample.with_tokens Sample.hooks (Some "rpc timeout") false) = Some "rpc timeout" /\
  shown (C := Sample.wallet) isCopyErrorFallback
    (render Sample.account (Sample.with_tokens Sample.hooks (Some "rpc timeout") false)) = [] /\
  shown (C := Sample.wallet) isErrorBoundary
    (render Sample.account (Sample.with_tokens Sample.hooks (Some "rpc timeout") false)) = [].
Proof. repeat split. Qed.

(* ===================================================================== *)
(** ** Properties of the effects *)
(* ===================================================================== *)

Section EffectProperties.
Context `{C : Collaborators}.

Lemma runs_ret {A : Type} (a : A) (w : World) :
  runs (ret a) w a [] (timers w) (nextTimerId w).
Proof.
  unfold runs, ret; simpl. rewrite app_nil_r. auto.
Qed.

Lemma runs_bind {A B : Type} (m : M A) (k : A -> M B) (w : World)
    (a : A) (b : B) (add1 add2 : list Call) (ts1 ts2 : list Timer) (n1 n2 : Z) :
  runs m w a add1 ts1 n1 ->
  runs (k a) (snd (m w)) b add2 ts2 n2 ->
  runs (bind m k) w b (add1 ++ add2) ts2 n2.
Proof.
  unfold runs, bind. destruct (m w) as [[a' | e] w1]; simpl.
  - intros (Ha & Hc & _ & _) (Hb & Hc' & Ht & Hn).
    injection Ha as ->. rewrite Hc', Hc, app_assoc. auto.
  - intros (Ha & _). discriminate Ha.
Qed.

Lemma bind_normal {A B : Type} (m : M A) (k : A -> M B) (w : World) (a : A) :
  fst (m w) = Normal a ->
  bind m k w = k a (snd (m w)).
Proof.
  unfold bind. destruct (m w) as [[a' | e] w']; simpl; intros H.
  - injection H as ->. reflexivity.
  - discriminate H.
Qed.

Lemma runs_record_call (c : Call) (w : World) :
  runs (record_call c) w tt [c] (timers w) (nextTimerId w).
Proof. unfold runs; simpl; auto. Qed.

(** A computation that ends normally and leaves timers alone, such as the
    last three effects. *)
Lemma runs_quiet_bind {A B : Type} (m : M A) (k : A -> M B) (w : World)
    (a : A) (b : B) (add1 add2 : list Call) (ts : list Timer) (n : Z) :
  runs m w a add1 ts n ->
  runs (k a) (snd (m w)) b add2
    (timers (snd (m w))) (nextTimerId (snd (m w))) ->
  runs (bind m k) w b (add1 ++ add2) ts n.
Proof.
  intros Hm Hk.
  destruct Hm as (Ha & Hc & Ht & Hn).
  rewrite <- Ht, <- Hn.
  eapply runs_bind; [repeat split; eauto | exact Hk].
Qed.

Lemma usePendingEffect_runs (h : Hooks) (inst : Instance) (w : World) :
  exists current added,
    runs (usePendingEffect h inst) w current added (timers w) (nextTimerId w) /\
    filter isUpgradeMessageCall added = [].
Proof.
  unfold usePendingEffect, pendingEffect.
  destruct (depsChanged same_pending_deps (pending_deps inst) (pendingDeps h)).
  - destruct (hasPendingTransactions h), (hadPendingTransactions inst); simpl;
      try (do 2 eexists; split; [apply runs_ret | reflexivity]).
    exists false, [CallMutate (swrMutate h) false]. split; [| reflexivity].
    unfold runs, bind, mutate, ret; simpl; auto.
  - do 2 eexists; split; [apply runs_ret | reflexivity].
Qed.

Lemma useConnectEffect_runs (account : Account) (inst : Instance) (w : World) :
  exists added,
    runs (useConnectEffect account inst) w tt added (timers w) (nextTimerId w) /\
    filter isUpgradeMessageCall added = [].
Proof.
  unfold useConnectEffect, connectEffect, connectAccount.
  destruct (depsChanged same_account (connect_deps inst) account).
  - eexists; split; [apply runs_record_call | reflexivity].
  - eexists; split; [apply runs_ret | reflexivity].
Qed.

(** The calls of the fourth effect in a render with hook values [h]. *)
Lemma useUpgradeMessageEffect_runs (h : Hooks) (inst : Instance) (w : World) :
  runs (useUpgradeMessageEffect h inst) w tt
    (if depsChanged Bool.eqb (upgradeMessage_deps inst)
          (shouldShowNetworkUpgradeMessage h)
        && shouldShowNetworkUpgradeMessage h
     then [CallUpdateLastShown; CallNavigate (useNavigate h) routes_networkUpgradeV4]
     else [])
    (timers w) (nextTimerId w).
Proof.
  unfold useUpgradeMessageEffect, upgradeMessageEffect.
  destruct (depsChanged Bool.eqb (upgradeMessage_deps inst)
              (shouldShowNetworkUpgradeMessage h));
    destruct (shouldShowNetworkUpgradeMessage h); simpl;
    try apply runs_ret.
  unfold runs, bind, updateLastShownNetworkUpgradeMessage, navigate; simpl.
  rewrite <- app_assoc. auto.
Qed.

Lemma useReviewEffect_runs (h : Hooks) (inst : Instance) (w : World) :
  exists timeoutId ts next,
    runs (useReviewEffect h inst) w timeoutId [] ts next.
Proof.
  unfold runs, useReviewEffect, reviewCleanup, reviewEffect, bind, ret,
    clearTimeout, setTimeout.
  destruct (depsChanged same_review_deps (review_deps inst) (reviewDeps h));
    [ destruct (review_timeoutId inst) as [id |];
      [ destruct (id =? 0) |];
      destruct (negb (userHasReviewed h) && (transactionsBeforeReview h =? 0)) |];
    simpl; rewrite app_nil_r; eauto 10.
Qed.

(** One render's effects, given what the first effect did: the timers are
    the ones it left, and the calls of the fourth effect are the only
    upgrade-message calls. *)
Lemma commit_runs (account : Account) (h : Hooks) (inst : Instance) (w : World)
    (timeoutId : option Z) (ts : list Timer) (next : Z) :
  runs (useReviewEffect h inst) w timeoutId [] ts next ->
  exists current added,
    runs (commit account h inst) w
      {| hadPendingTransactions := current;
         review_deps := Some (reviewDeps h);
         review_timeoutId := timeoutId;
         pending_deps := Some (pendingDeps h);
         connect_deps := Some account;
         upgradeMessage_deps := Some (shouldShowNetworkUpgradeMessage h) |}
      added ts next /\
    filter isUpgradeMessageCall added =
      if depsChanged Bool.eqb (upgradeMessage_deps inst)
           (shouldShowNetworkUpgradeMessage h)
         && shouldShowNetworkUpgradeMessage h
      then [CallUpdateLastShown; CallNavigate (useNavigate h) routes_networkUpgradeV4]
      else [].
Proof.
  intros Hreview.
  set (w1 := snd (useReviewEffect h inst w)).
  destruct (usePendingEffect_runs h inst w1) as (current & add2 & Hpending & Hf2).
  set (w2 := snd (usePendingEffect h inst w1)) in *.
  destruct (useConnectEffect_runs account inst w2) as (add3 & Hconnect & Hf3).
  set (w3 := snd (useConnectEffect account inst w2)) in *.
  assert (Hmessage := useUpgradeMessageEffect_runs h inst w3).
  set (w4 := snd (useUpgradeMessageEffect h inst w3)) in *.
  exists current. eexists. split.
  - unfold commit.
    eapply runs_quiet_bind; [exact Hreview |].
    eapply runs_quiet_bind; [exact Hpending |].
    eapply runs_quiet_bind; [exact Hconnect |].
    eapply runs_quiet_bind; [exact Hmessage |].
    apply runs_ret.
  - simpl. rewrite !filter_app, Hf2, Hf3. simpl. rewrite app_nil_r.
    destruct (depsChanged Bool.eqb (upgradeMessage_deps inst)
                (shouldShowNetworkUpgradeMessage h)
              && shouldShowNetworkUpgradeMessage h); simpl.
    + now rewrite String.eqb_refl.
    + reflexivity.
Qed.

End EffectProperties.

Section ReviewProperties.
Context `{C : Collaborators}.

Lemma same_review_deps_eq (p q : FnId * Z * bool) :
  same_review_deps p q = true -> p = q.
Proof.
  destruct p as [[nav1 n1] r1], q as [[nav2 n2] r2]. unfold same_review_deps.
  rewrite !andb_true_iff, Nat.eqb_eq, Z.eqb_eq.
  intros [[-> ->] Hr]. apply eqb_prop in Hr. now subst.
Qed.

(** Clearing a handle at or above the next handle of [w0] leaves the timers
    of [w0] in place. *)
Lemma filter_keeps_older (w0 : World) (id : Z) :
  timers_ok w0 ->
  nextTimerId w0 <= id ->
  filter (fun t => negb (timer_id t =? id)) (timers w0) = timers w0.
Proof.
  intros [_ Hall] Hid.
  induction Hall as [| t ts Ht _ IH]; simpl.
  - reflexivity.
  - destruct (Z.eqb_spec (timer_id t) id) as [Heq | Hne]; simpl.
    + lia.
    + now rewrite IH.
Qed.

Lemma clear_own_timer (w0 : World) (id : Z) (cb : Action) (d : Z) :
  timers_ok w0 ->
  nextTimerId w0 <= id ->
  filter (fun t => negb (timer_id t =? id))
    (timers w0 ++ [{| timer_id := id; timer_callback := cb; timer_delay := d |}]) =
  timers w0.
Proof.
  intros Hok Hid.
  rewrite filter_app, filter_keeps_older by assumption.
  simpl. rewrite Z.eqb_refl. simpl. apply app_nil_r.
Qed.

(** The first effect keeps [review_inv]. *)
Lemma useReviewEffect_inv (w0 : World) (h : Hooks) (inst : Instance) (w : World) :
  timers_ok w0 ->
  review_inv w0 inst w ->
  exists timeoutId ts next,
    runs (useReviewEffect h inst) w timeoutId [] ts next /\
    forall inst' w',
      timers w' = ts ->
      nextTimerId w' = next ->
      review_deps inst' = Some (reviewDeps h) ->
      review_timeoutId inst' = timeoutId ->
      review_inv w0 inst' w'.
Proof.
  intros Hok [Hnext Hinv].
  assert (Hpos : 0 < nextTimerId w0) by apply Hok.
  unfold useReviewEffect.
  destruct (depsChanged same_review_deps (review_deps inst) (reviewDeps h)) eqn:Hchanged.
  - (* the effect runs again: cleanup, then the body *)
    assert (Hcleared :
      runs (reviewCleanup (review_timeoutId inst)) w tt [] (timers w0) (nextTimerId w)).
    { unfold reviewCleanup.
      destruct (review_timeoutId inst) as [id |].
      - destruct Hinv as (Hid & nav & _ & Htimers).
        destruct (Z.eqb_spec id 0) as [Hzero | _]; [lia |].
        unfold runs, clearTimeout; simpl.
        rewrite Htimers, clear_own_timer, app_nil_r by (assumption || lia).
        auto.
      - destruct Hinv as [Htimers _]. rewrite <- Htimers. apply runs_ret. }
    set (w1 := snd (reviewCleanup (review_timeoutId inst) w)).
    assert (Ht1 : timers w1 = timers w0) by apply Hcleared.
    assert (Hn1 : nextTimerId w1 = nextTimerId w) by apply Hcleared.
    unfold reviewEffect.
    destruct (negb (userHasReviewed h) && (transactionsBeforeReview h =? 0)) eqn:Hcond.
    + exists (Some (nextTimerId w)),
        (timers w0 ++ [reviewTimer (nextTimerId w) h]), (nextTimerId w + 1).
      split.
      * change (@nil Call) with (@nil Call ++ []).
        eapply runs_bind; [exact Hcleared |].
        fold w1. unfold runs, bind, setTimeout, ret; simpl.
        rewrite Ht1, Hn1, app_nil_r. auto.
      * intros inst' w' Hts Hnx Hdeps Htid.
        unfold review_inv. rewrite Htid, Hts, Hnx, Hdeps.
        apply andb_true_iff in Hcond. destruct Hcond as [Hrev Hzero].
        apply negb_true_iff in Hrev. apply Z.eqb_eq in Hzero.
        split; [lia |]. split; [lia |].
        exists (useNavigate h). unfold reviewDeps. rewrite Hrev, Hzero.
        split; reflexivity.
    + exists None, (timers w0), (nextTimerId w).
      split.
      * change (@nil Call) with (@nil Call ++ []).
        eapply runs_bind; [exact Hcleared |].
        fold w1. rewrite <- Ht1, <- Hn1. apply runs_ret.
      * intros inst' w' Hts Hnx Hdeps Htid.
        unfold review_inv. rewrite Htid, Hts, Hnx, Hdeps.
        split; [lia |]. split; [reflexivity |]. exact Hcond.
  - (* same dependencies as in the previous run: nothing happens *)
    unfold depsChanged in Hchanged.
    destruct (review_deps inst) as [p |] eqn:Hprev; [| discriminate Hchanged].
    apply negb_false_iff, same_review_deps_eq in Hchanged. subst p.
    exists (review_timeoutId inst), (timers w), (nextTimerId w).
    split; [apply runs_ret |].
    intros inst' w' Hts Hnx Hdeps Htid.
    unfold review_inv. rewrite Htid, Hts, Hnx, Hdeps.
    split; [lia |]. exact Hinv.
Qed.

(** One render keeps [review_inv] and records its dependencies. *)
Lemma AccountTokens_inv (w0 : World) (account : Account) (h : Hooks)
    (inst : Instance) (w : World) :
  timers_ok w0 ->
  review_inv w0 inst w ->
  exists inst',
    fst (AccountTokens account h inst w) = Normal (render account h, inst') /\
    review_deps inst' = Some (reviewDeps h) /\
    review_inv w0 inst' (snd (AccountTokens account h inst w)).
Proof.
  intros Hok Hinv.
  destruct (useReviewEffect_inv w0 h inst w Hok Hinv)
    as (timeoutId & ts & next & Hreview & Hkeep).
  destruct (commit_runs account h inst w timeoutId ts next Hreview)
    as (current & added & Hcommit & _).
  destruct Hcommit as (Hfst & _ & Hts & Hnx).
  eexists. unfold AccountTokens, bind, ret.
  destruct (commit account h inst w) as [[inst' | e] w']; simpl in *;
    [| discriminate Hfst].
  injection Hfst as ->.
  split; [reflexivity |]. split; [reflexivity |].
  apply Hkeep; auto.
Qed.

Lemma renders_inv (w0 : World) (account : Account) (h : Hooks)
    (rs : list (Account * Hooks)) :
  timers_ok w0 ->
  forall inst w,
    review_inv w0 inst w ->
    exists inst',
      fst (renders (rs ++ [(account, h)]) inst w) = Normal inst' /\
      review_deps inst' = Some (reviewDeps h) /\
      review_inv w0 inst' (snd (renders (rs ++ [(account, h)]) inst w)).
Proof.
  intros Hok.
  induction rs as [| [account1 h1] rs IH]; intros inst w Hinv; cbn [renders app].
  - destruct (AccountTokens_inv w0 account h inst w Hok Hinv)
      as (inst' & Hfst & Hdeps & Hinv').
    exists inst'. rewrite (bind_normal _ _ _ _ Hfst). simpl. auto.
  - destruct (AccountTokens_inv w0 account1 h1 inst w Hok Hinv)
      as (inst1 & Hfst & _ & Hinv1).
    rewrite (bind_normal _ _ _ _ Hfst). simpl.
    apply IH. exact Hinv1.
Qed.

End ReviewProperties.

Section RenderSequences.
Context `{C : Collaborators}.

(** C7. Take an instance mounted in a world whose timer handles are
    positive and not reused, and any sequence of renders.  After the last
    render, with hook values [h]: when the user has not reviewed and
    [transactionsBeforeReview] is exactly [0], one timer of the component is
    pending, which navigates to the user-review route after 1000 ms; for
    every other combination of the two values the component has no timer
    pending; and the cleanup of the effect cancels the pending timer. *)
Theorem review_navigation_scheduled (w0 : World) (rs : list (Account * Hooks))
    (account : Account) (h : Hooks) :
  timers_ok w0 ->
  exists inst,
    fst (renders (rs ++ [(account, h)]) mounting w0) = Normal inst /\
    let w := snd (renders (rs ++ [(account, h)]) mounting w0) in
    (userHasReviewed h = false /\ transactionsBeforeReview h = 0 ->
     exists id, timers w = timers w0 ++ [reviewTimer id h]) /\
    (~ (userHasReviewed h = false /\ transactionsBeforeReview h = 0) ->
     timers w = timers w0) /\
    timers (snd (unmount inst w)) = timers w0.
Proof.
  intros Hok.
  assert (Hpos : 0 < nextTimerId w0) by apply Hok.
  assert (Hstart : review_inv w0 mounting w0).
  { unfold review_inv; simpl. split; [lia | split; [reflexivity | exact I]]. }
  destruct (renders_inv w0 account h rs Hok mounting w0 Hstart)
    as (inst & Hfst & Hdeps & Hinv).
  exists inst. split; [exact Hfst |].
  cbv zeta. set (w := snd (renders (rs ++ [(account, h)]) mounting w0)) in *.
  destruct Hinv as [Hnext Hinv]. unfold unmount, reviewCleanup.
  destruct (review_timeoutId inst) as [id |].
  - destruct Hinv as (Hid & nav & Hd & Htimers).
    rewrite Hdeps in Hd. unfold reviewDeps in Hd.
    injection Hd as Hnav Hzero Hrev.
    split; [| split].
    + intros _. exists id. unfold reviewTimer. now rewrite Hnav.
    + intros Hother. elim Hother. split; assumption.
    + destruct (Z.eqb_spec id 0) as [Hz | _]; [lia |].
      unfold clearTimeout; simpl. rewrite Htimers.
      apply clear_own_timer; [assumption | lia].
  - destruct Hinv as [Htimers Hcond].
    rewrite Hdeps in Hcond. unfold reviewDeps in Hcond.
    split; [| split].
    + intros [Hrev Hzero]. rewrite Hrev, Hzero in Hcond. discriminate Hcond.
    + intros _. exact Htimers.
    + exact Htimers.
Qed.

(** C8, as the code has it.  The fourth effect depends on
    [shouldShowNetworkUpgradeMessage] alone.  In a render where that value
    is true and was not already true in the previous render of the instance
    (or there was none), the component calls
    [updateLastShownNetworkUpgradeMessage] and then navigates to the
    network-upgrade route; in a render where the value is false, or the same
    as in the previous render, neither call is made.  Every render records
    the value for the next one. *)
Theorem upgrade_message_on_change (account : Account) (h : Hooks)
    (inst : Instance) (w : World) :
  let made := filter isUpgradeMessageCall (calls_of (commit account h inst) w) in
  (shouldShowNetworkUpgradeMessage h = true ->
   upgradeMessage_deps inst <> Some true ->
   made = [CallUpdateLastShown; CallNavigate (useNavigate h) routes_networkUpgradeV4]) /\
  (shouldShowNetworkUpgradeMessage h = false -> made = []) /\
  (upgradeMessage_deps inst = Some (shouldShowNetworkUpgradeMessage h) -> made = []) /\
  (exists inst',
     fst (commit account h inst w) = Normal inst' /\
     upgradeMessage_deps inst' = Some (shouldShowNetworkUpgradeMessage h)).
Proof.
  destruct (useReviewEffect_runs h inst w) as (timeoutId & ts & next & Hreview).
  destruct (commit_runs account h inst w timeoutId ts next Hreview)
    as (current & added & Hruns & Hfilter).
  destruct Hruns as (Hfst & Hcalls & _ & _).
  cbv zeta. rewrite (calls_of_extends _ _ _ Hcalls), Hfilter.
  unfold depsChanged.
  repeat split.
  - intros Hshow Hprev. rewrite Hshow.
    destruct (upgradeMessage_deps inst) as [[|] |]; simpl;
      solve [reflexivity | now elim Hprev].
  - intros Hshow. rewrite Hshow. now rewrite andb_false_r.
  - intros Hprev. rewrite Hprev, Bool.eqb_reflx. reflexivity.
  - eexists. split; [exact Hfst | reflexivity].
Qed.

End RenderSequences.

(** The sample wallet: a render after the review, then one in which the
    review is due. *)
Lemma review_navigation_scheduled_witness :
  exists inst,
    fst (renders (C := Sample.wallet)
           ([(Sample.account, Sample.hooks)] ++
            [(Sample.account, Sample.with_review Sample.hooks false 0)])
           mounting Sample.online) = Normal inst /\
    let w := snd (renders (C := Sample.wallet)
                    ([(Sample.account, Sample.hooks)] ++
                     [(Sample.account, Sample.with_review Sample.hooks false 0)])
                    mounting Sample.online) in
    (userHasReviewed (Sample.with_review Sample.hooks false 0) = false /\
     transactionsBeforeReview (Sample.with_review Sample.hooks false 0) = 0 ->
     exists id,
       timers w =
       timers Sample.online ++ [reviewTimer id (Sample.with_review Sample.hooks false 0)]) /\
    (~ (userHasReviewed (Sample.with_review Sample.hooks false 0) = false /\
        transactionsBeforeReview (Sample.with_review Sample.hooks false 0) = 0) ->
     timers w = timers Sample.online) /\
    timers (snd (unmount inst w)) = timers Sample.online.
Proof.
  apply (review_navigation_scheduled (C := Sample.wallet) Sample.online
           [(Sample.account, Sample.hooks)] Sample.account
           (Sample.with_review Sample.hooks false 0)).
  split; [reflexivity | constructor].
Defined.

(** The sample wallet on its first render, with the notice due. *)
Lemma upgrade_message_on_change_witness :
  filter (isUpgradeMessageCall (C := Sample.wallet))
    (calls_of
       (commit Sample.account (Sample.with_notice Sample.hooks true false) mounting)
       Sample.online) =
  [CallUpdateLastShown; CallNavigate 1%nat "/network-upgrade-v4"].
Proof.
  destruct (upgrade_message_on_change (C := Sample.wallet) Sample.account
              (Sample.with_notice Sample.hooks true false) mounting Sample.online)
    as [Hfirst _].
  apply Hfirst; [reflexivity | discriminate].
Defined.

(** C8, as stated, fails: the notice is due in two renders in a row (the
    second one caused by the token-balance hook revalidating); the first
    render makes the two calls, the second render makes no call at all. *)
Lemma upgrade_message_not_repeated :
  exists inst1 w1,
    commit (C := Sample.wallet) Sample.account
      (Sample.with_notice Sample.hooks true false) mounting Sample.online =
      (Normal inst1, w1) /\
    calls w1 =
      [CallConnectAccount Sample.account; CallUpdateLastShown;
       CallNavigate 1%nat "/network-upgrade-v4"] /\
    shouldShowNetworkUpgradeMessage (Sample.with_notice Sample.hooks true true) = true /\
    calls_of
      (commit Sample.account (Sample.with_notice Sample.hooks true true) inst1) w1 = [].
Proof.
  do 2 eexists. repeat split.
Qed.

(* ===================================================================== *)
(** ** Sample runs *)
(* ===================================================================== *)

Example sample_upgrade_banner :
  shown (C := Sample.wallet) isUpgradeBanner
    (render Sample.account (Sample.with_upgrade Sample.hooks (Some true) (Some 10))) =
  [UpgradeBanner false "/account/upgrade-v4" (Some "/account/tokens")].
Proof. reflexivity. Qed.

Example sample_no_balance_banner :
  shown (C := Sample.wallet) isNoBalanceBanner
    (render Sample.account (Sample.with_upgrade Sample.hooks (Some true) (Some 0))) =
  [UpgradeBanner true "/funding" None].
Proof. reflexivity. Qed.

Example sample_review_timer :
  timers
    (snd (commit (C := Sample.wallet) Sample.account
            (Sample.with_review Sample.hooks false 0) mounting Sample.online)) =
  [{| timer_id := 1;
      timer_callback := NavigateTo 1%nat "/user-review";
      timer_delay := 1000 |}].
Proof. reflexivity. Qed.

Example sample_review_not_due :
  timers
    (snd (commit (C := Sample.wallet) Sample.account
            (Sample.with_review Sample.hooks false 1) mounting Sample.online)) = [].
Proof. reflexivity. Qed.

(* ===================================================================== *)
(** ** The calls of a render's effects *)
(* ===================================================================== *)

Section EffectCalls.
Context `{C : Collaborators}.

(** The body of the second effect leaves the ref equal to
    [hasPendingTransactions], and calls [mutate(false)] when the ref was set
    and nothing is pending. *)
Lemma pendingEffect_runs (h : Hooks) (current : bool) (w : World) :
  runs (pendingEffect h current) w (hasPendingTransactions h)
    (if current && negb (hasPendingTransactions h)
     then [CallMutate (swrMutate h) false]
     else [])
    (timers w) (nextTimerId w).
Proof.
  unfold pendingEffect.
  destruct (hasPendingTransactions h), current; simpl; try apply runs_ret.
  unfold runs, bind, mutate, ret; simpl; auto.
Qed.

Lemma usePendingEffect_calls (h : Hooks) (inst : Instance) (w : World) :
  runs (usePendingEffect h inst) w
    (if depsChanged same_pending_deps (pending_deps inst) (pendingDeps h)
     then hasPendingTransactions h
     else hadPendingTransactions inst)
    (pendingCalls h inst) (timers w) (nextTimerId w).
Proof.
  unfold usePendingEffect, pendingCalls.
  destruct (depsChanged same_pending_deps (pending_deps inst) (pendingDeps h)); simpl.
  - apply pendingEffect_runs.
  - apply runs_ret.
Qed.

Lemma useConnectEffect_calls (account : Account) (inst : Instance) (w : World) :
  runs (useConnectEffect account inst) w tt (connectCalls account inst)
    (timers w) (nextTimerId w).
Proof.
  unfold useConnectEffect, connectCalls, connectEffect, connectAccount.
  destruct (depsChanged same_account (connect_deps inst) account).
  - apply runs_record_call.
  - apply runs_ret.
Qed.

(** One render's effects in full: the instance they leave, the calls they
    make, and the timers, which are those the first effect left. *)
Lemma commit_effects (account : Account) (h : Hooks) (inst : Instance) (w : World) :
  exists timeoutId ts next,
    runs (useReviewEffect h inst) w timeoutId [] ts next /\
    runs (commit account h inst) w
      {| hadPendingTransactions :=
           if depsChanged same_pending_deps (pending_deps inst) (pendingDeps h)
           then hasPendingTransactions h
           else hadPendingTransactions inst;
         review_deps := Some (reviewDeps h);
         review_timeoutId := timeoutId;
         pending_deps := Some (pendingDeps h);
         connect_deps := Some account;
         upgradeMessage_deps := Some (shouldShowNetworkUpgradeMessage h) |}
      (pendingCalls h inst ++ connectCalls account inst ++ upgradeMessageCalls h inst)
      ts next.
Proof.
  destruct (useReviewEffect_runs h inst w) as (timeoutId & ts & next & Hreview).
  exists timeoutId, ts, next. split; [exact Hreview |].
  set (w1 := snd (useReviewEffect h inst w)).
  assert (Hpending := usePendingEffect_calls h inst w1).
  set (w2 := snd (usePendingEffect h inst w1)) in *.
  assert (Hconnect := useConnectEffect_calls account inst w2).
  set (w3 := snd (useConnectEffect account inst w2)) in *.
  assert (Hmessage := useUpgradeMessageEffect_runs h inst w3).
  fold (upgradeMessageCalls h inst) in Hmessage.
  replace (pendingCalls h inst ++ connectCalls account inst ++ upgradeMessageCalls h inst)
    with ([] ++ pendingCalls h inst ++ connectCalls account inst ++
          upgradeMessageCalls h inst ++ [])
    by (simpl; now rewrite app_nil_r).
  unfold commit.
  eapply runs_quiet_bind; [exact Hreview |].
  eapply runs_quiet_bind; [exact Hpending |].
  eapply runs_quiet_bind; [exact Hconnect |].
  eapply runs_quiet_bind; [exact Hmessage |].
  apply runs_ret.
Qed.

Lemma commit_calls (account : Account) (h : Hooks) (inst : Instance) (w : World) :
  calls_of (commit account h inst) w =
  pendingCalls h inst ++ connectCalls account inst ++ upgradeMessageCalls h inst.
Proof.
  destruct (commit_effects account h inst w) as (timeoutId & ts & next & _ & Hruns).
  apply calls_of_extends. apply Hruns.
Qed.

Lemma same_pending_deps_refl (p : FnId * bool) : same_pending_deps p p = true.
Proof.
  unfold same_pending_deps. now rewrite Nat.eqb_refl, Bool.eqb_reflx.
Qed.

Lemma same_review_deps_refl (p : FnId * Z * bool) : same_review_deps p p = true.
Proof.
  destruct p as [[nav n] r]. unfold same_review_deps.
  now rewrite Nat.eqb_refl, Z.eqb_refl, Bool.eqb_reflx.
Qed.

Lemma same_account_refl (a : Account) : same_account a a = true.
Proof.
  unfold same_account. destruct (Account_eq_dec a a) as [_ | Hne];
    [reflexivity | now elim Hne].
Qed.

Lemma same_account_true (a b : Account) : same_account a b = true <-> a = b.
Proof.
  unfold same_account. destruct (Account_eq_dec a b) as [Heq | Hne];
    split; intros H; try reflexivity; try assumption;
    [discriminate H | now elim Hne].
Qed.

Lemma same_pending_deps_snd (p q : FnId * bool) :
  same_pending_deps p q = true -> snd p = snd q.
Proof.
  unfold same_pending_deps. rewrite andb_true_iff.
  intros [_ H]. now apply eqb_prop.
Qed.

(** One render takes an instance whose ref tracks the second effect's
    dependencies to the instance [after_render] describes. *)
Lemma AccountTokens_after_render (account : Account) (h : Hooks)
    (inst : Instance) (w : World) :
  ref_tracks_deps inst ->
  exists inst',
    fst (AccountTokens account h inst w) = Normal (render account h, inst') /\
    after_render account h inst'.
Proof.
  intros Href.
  destruct (commit_effects account h inst w)
    as (timeoutId & ts & next & _ & Hfst & _).
  eexists. unfold AccountTokens.
  rewrite (bind_normal _ _ _ _ Hfst). split; [reflexivity |].
  unfold after_render; simpl. repeat split.
  unfold ref_tracks_deps, depsChanged in *.
  destruct (pending_deps inst) as [p |]; [| reflexivity].
  destruct (same_pending_deps p (pendingDeps h)) eqn:Hsame; simpl;
    [| reflexivity].
  apply same_pending_deps_snd in Hsame. now rewrite Href, Hsame.
Qed.

Lemma after_render_tracks (account : Account) (h : Hooks) (inst : Instance) :
  after_render account h inst -> ref_tracks_deps inst.
Proof.
  intros (Href & _ & Hdeps & _). unfold ref_tracks_deps. now rewrite Hdeps, Href.
Qed.

Lemma renders_after_render (account : Account) (h : Hooks)
    (rs : list (Account * Hooks)) :
  forall inst w,
    ref_tracks_deps inst ->
    exists inst',
      fst (renders (rs ++ [(account, h)]) inst w) = Normal inst' /\
      after_render account h inst'.
Proof.
  induction rs as [| [account1 h1] rs IH]; intros inst w Href; cbn [renders app].
  - destruct (AccountTokens_after_render account h inst w Href)
      as (inst' & Hfst & Hafter).
    exists inst'. rewrite (bind_normal _ _ _ _ Hfst). simpl. auto.
  - destruct (AccountTokens_after_render account1 h1 inst w Href)
      as (inst1 & Hfst & Hafter).
    rewrite (bind_normal _ _ _ _ Hfst). simpl.
    apply IH. eapply after_render_tracks; eassumption.
Qed.

End EffectCalls.

Section EffectCallProperties.
Context `{C : Collaborators}.

Lemma filter_mutate_calls (account : Account) (h : Hooks) (inst : Instance) (w : World) :
  filter isMutateCall (calls_of (commit account h inst) w) = pendingCalls h inst.
Proof.
  rewrite commit_calls, !filter_app.
  unfold pendingCalls, connectCalls, upgradeMessageCalls.
  destruct (depsChanged same_pending_deps (pending_deps inst) (pendingDeps h)
            && hadPendingTransactions inst && negb (hasPendingTransactions h));
    destruct (depsChanged same_account (connect_deps inst) account);
    destruct (depsChanged Bool.eqb (upgradeMessage_deps inst)
                (shouldShowNetworkUpgradeMessage h)
              && shouldShowNetworkUpgradeMessage h);
    reflexivity.
Qed.

Lemma filter_connect_calls (account : Account) (h : Hooks) (inst : Instance) (w : World) :
  filter isConnectCall (calls_of (commit account h inst) w) = connectCalls account inst.
Proof.
  rewrite commit_calls, !filter_app.
  unfold pendingCalls, connectCalls, upgradeMessageCalls.
  destruct (depsChanged same_pending_deps (pending_deps inst) (pendingDeps h)
            && hadPendingTransactions inst && negb (hasPendingTransactions h));
    destruct (depsChanged same_account (connect_deps inst) account);
    destruct (depsChanged Bool.eqb (upgradeMessage_deps inst)
                (shouldShowNetworkUpgradeMessage h)
              && shouldShowNetworkUpgradeMessage h);
    reflexivity.
Qed.

(** The timer table and the next handle after the first effect of a
    render: when the effect runs again, the handle the instance held is
    cleared (unless it is [undefined] or [0]) and, when the review is due,
    one timer is added under the next handle. *)
Lemma useReviewEffect_timers (h : Hooks) (inst : Instance) (w : World) :
  timers (snd (useReviewEffect h inst w)) =
    (if depsChanged same_review_deps (review_deps inst) (reviewDeps h)
     then
       match review_timeoutId inst with
       | Some id =>
           if id =? 0 then timers w
           else filter (fun t => negb (timer_id t =? id)) (timers w)
       | None => timers w
       end ++
       (if negb (userHasReviewed h) && (transactionsBeforeReview h =? 0)
        then [reviewTimer (nextTimerId w) h]
        else [])
     else timers w) /\
  nextTimerId (snd (useReviewEffect h inst w)) =
    (if depsChanged same_review_deps (review_deps inst) (reviewDeps h)
        && (negb (userHasReviewed h) && (transactionsBeforeReview h =? 0))
     then nextTimerId w + 1
     else nextTimerId w).
Proof.
  unfold useReviewEffect, reviewCleanup, reviewEffect, bind, ret,
    clearTimeout, setTimeout, reviewTimer.
  destruct (depsChanged same_review_deps (review_deps inst) (reviewDeps h));
    [ destruct (review_timeoutId inst) as [id |];
      [ destruct (id =? 0) |];
      destruct (negb (userHasReviewed h) && (transactionsBeforeReview h =? 0)) |];
    simpl; rewrite ?app_nil_r; split; reflexivity.
Qed.

Lemma commit_timers (account : Account) (h : Hooks) (inst : Instance) (w : World) :
  timers (snd (commit account h inst w)) = timers (snd (useReviewEffect h inst w)) /\
  nextTimerId (snd (commit account h inst w)) =
    nextTimerId (snd (useReviewEffect h inst w)).
Proof.
  destruct (commit_effects account h inst w)
    as (timeoutId & ts & next & Hreview & Hcommit).
  destruct Hcommit as (_ & _ & Hts & Hnext).
  destruct Hreview as (_ & _ & Hts' & Hnext').
  now rewrite Hts, Hnext, Hts', Hnext'.
Qed.

(** X1. What the effects of a render touch.  The calls they make into
    collaborators are [mutate(false)], [connectAccount(account)],
    [updateLastShownNetworkUpgradeMessage()] and
    [navigate(routes.networkUpgradeV4())], with the [mutate] and [navigate]
    of that render, and no other: rendering never calls [redeployAccount]
    or [account.updateDeployTx].  Of the timers, the only one they set is
    the navigation to the user-review route after 1000 ms, under the next
    handle and with the [navigate] of that render, and the only ones they
    clear carry the handle the instance held from the earlier run of the
    first effect. *)
Theorem commit_touches_only (account : Account) (h : Hooks) (inst : Instance) (w : World) :
  Forall
    (fun c =>
       c = CallMutate (swrMutate h) false \/
       c = CallConnectAccount account \/
       c = CallUpdateLastShown \/
       c = CallNavigate (useNavigate h) routes_networkUpgradeV4)
    (calls_of (commit account h inst) w) /\
  (forall data, ~ In (CallRedeployAccount data) (calls_of (commit account h inst) w)) /\
  (forall a tx, ~ In (CallUpdateDeployTx a tx) (calls_of (commit account h inst) w)) /\
  (forall t, In t (timers (snd (commit account h inst w))) ->
     In t (timers w) \/ t = reviewTimer (nextTimerId w) h) /\
  (forall t, In t (timers w) ->
     In t (timers (snd (commit account h inst w))) \/
     review_timeoutId inst = Some (timer_id t)).
Proof.
  assert (Hall :
    Forall
      (fun c =>
         c = CallMutate (swrMutate h) false \/
         c = CallConnectAccount account \/
         c = CallUpdateLastShown \/
         c = CallNavigate (useNavigate h) routes_networkUpgradeV4)
      (calls_of (commit account h inst) w)).
  { rewrite commit_calls.
    unfold pendingCalls, connectCalls, upgradeMessageCalls.
    destruct (depsChanged same_pending_deps (pending_deps inst) (pendingDeps h)
              && hadPendingTransactions inst && negb (hasPendingTransactions h));
      destruct (depsChanged same_account (connect_deps inst) account);
      destruct (depsChanged Bool.eqb (upgradeMessage_deps inst)
                  (shouldShowNetworkUpgradeMessage h)
                && shouldShowNetworkUpgradeMessage h);
      simpl; repeat (apply Forall_cons; [auto 6 |]); apply Forall_nil. }
  split; [exact Hall |].
  rewrite Forall_forall in Hall.
  destruct (commit_timers account h inst w) as [Hts _].
  destruct (useReviewEffect_timers h inst w) as [Hreview _].
  rewrite Hts, Hreview.
  split; [| split; [| split]].
  - intros data Hin. destruct (Hall _ Hin) as [H | [H | [H | H]]]; discriminate H.
  - intros a tx Hin. destruct (Hall _ Hin) as [H | [H | [H | H]]]; discriminate H.
  - intros t.
    destruct (depsChanged same_review_deps (review_deps inst) (reviewDeps h));
      [| now left].
    rewrite in_app_iff. intros [Hold | Hnew].
    + left. destruct (review_timeoutId inst) as [id |]; [| exact Hold].
      destruct (id =? 0); [exact Hold |].
      apply filter_In in Hold. apply Hold.
    + right.
      destruct (negb (userHasReviewed h) && (transactionsBeforeReview h =? 0));
        [| contradiction].
      destruct Hnew as [<- | []]. reflexivity.
  - intros t Hin.
    destruct (depsChanged same_review_deps (review_deps inst) (reviewDeps h));
      [| now left].
    destruct (review_timeoutId inst) as [id |].
    + destruct (Z.eqb_spec (timer_id t) id) as [Heq | Hne].
      * right. now rewrite Heq.
      * left. rewrite in_app_iff. left.
        destruct (id =? 0); [exact Hin |].
        apply filter_In. split; [exact Hin |].
        apply negb_true_iff. now apply Z.eqb_neq.
    + left. rewrite in_app_iff. now left.
Qed.

(** X2. After any sequence of renders the [hadPendingTransactions] ref
    holds whether the last render had pending transactions; and the next
    render calls [mutate(false)], once, exactly when the last render had
    pending transactions and this one has none. *)
Theorem mutate_when_transactions_settle (w0 : World) (rs : list (Account * Hooks))
    (account0 : Account) (h0 : Hooks) (account : Account) (h : Hooks) :
  exists inst,
    fst (renders (rs ++ [(account0, h0)]) mounting w0) = Normal inst /\
    hadPendingTransactions inst = hasPendingTransactions h0 /\
    filter isMutateCall
      (calls_of (commit account h inst)
         (snd (renders (rs ++ [(account0, h0)]) mounting w0))) =
    if hasPendingTransactions h0 && negb (hasPendingTransactions h)
    then [CallMutate (swrMutate h) false]
    else [].
Proof.
  destruct (renders_after_render account0 h0 rs mounting w0 I)
    as (inst & Hfst & Href & _ & Hdeps & _).
  exists inst. split; [exact Hfst |]. split; [exact Href |].
  rewrite filter_mutate_calls. unfold pendingCalls.
  rewrite Hdeps, Href. unfold depsChanged, same_pending_deps, pendingDeps; simpl.
  destruct (hasPendingTransactions h0), (hasPendingTransactions h); simpl;
    rewrite ?andb_false_r; reflexivity.
Qed.

(** X3. After any sequence of renders, the next render calls
    [connectAccount] exactly when its [account] prop is not the one of the
    last render, and then with the new account. *)
Theorem connect_when_account_changes (w0 : World) (rs : list (Account * Hooks))
    (account0 : Account) (h0 : Hooks) (account : Account) (h : Hooks) :
  exists inst,
    fst (renders (rs ++ [(account0, h0)]) mounting w0) = Normal inst /\
    filter isConnectCall
      (calls_of (commit account h inst)
         (snd (renders (rs ++ [(account0, h0)]) mounting w0))) =
    if Account_eq_dec account0 account then [] else [CallConnectAccount account].
Proof.
  destruct (renders_after_render account0 h0 rs mounting w0 I)
    as (inst & Hfst & _ & _ & _ & Hdeps & _).
  exists inst. split; [exact Hfst |].
  rewrite filter_connect_calls. unfold connectCalls.
  rewrite Hdeps. unfold depsChanged, same_account.
  destruct (Account_eq_dec account0 account); reflexivity.
Qed.

(** X4. The first render of an instance sets the timer of the navigation
    to the user-review route exactly when the review is due (the user has
    not reviewed and [transactionsBeforeReview] is [0]) and clears no timer;
    it connects the account and then, when the network-upgrade notice is
    due, updates the last-shown mark and navigates to the notice.  It makes
    no other call into a collaborator, and never calls [mutate], whether
    transactions are pending or not. *)
Theorem first_render_effects (account : Account) (h : Hooks) (w : World) :
  calls_of (commit account h mounting) w =
    CallConnectAccount account ::
    (if shouldShowNetworkUpgradeMessage h
     then [CallUpdateLastShown; CallNavigate (useNavigate h) routes_networkUpgradeV4]
     else []) /\
  timers (snd (commit account h mounting w)) =
    timers w ++
    (if negb (userHasReviewed h) && (transactionsBeforeReview h =? 0)
     then [reviewTimer (nextTimerId w) h]
     else []) /\
  nextTimerId (snd (commit account h mounting w)) =
    (if negb (userHasReviewed h) && (transactionsBeforeReview h =? 0)
     then nextTimerId w + 1
     else nextTimerId w).
Proof.
  destruct (commit_timers account h mounting w) as [Hts Hnext].
  destruct (useReviewEffect_timers h mounting w) as [Hts' Hnext'].
  rewrite Hts, Hnext, Hts', Hnext', commit_calls.
  repeat split.
Qed.

(** X5. Rendering again with the same account and the same hook values is
    idle: the effects of the second render make no call, leave the timers
    and the whole world as they are, and leave the instance unchanged. *)
Theorem rerender_is_idle (account : Account) (h : Hooks) (inst : Instance) (w : World) :
  exists inst1,
    fst (commit account h inst w) = Normal inst1 /\
    commit account h inst1 (snd (commit account h inst w)) =
      (Normal inst1, snd (commit account h inst w)).
Proof.
  destruct (commit_effects account h inst w)
    as (timeoutId & ts & next & _ & Hfst & _).
  eexists. split; [exact Hfst |].
  unfold commit, useReviewEffect, usePendingEffect, useConnectEffect,
    useUpgradeMessageEffect, depsChanged.
  cbn [hadPendingTransactions review_deps review_timeoutId pending_deps
       connect_deps upgradeMessage_deps].
  rewrite same_review_deps_refl, same_pending_deps_refl, same_account_refl,
    Bool.eqb_reflx.
  reflexivity.
Qed.

(** X6. A render whose [navigate], [transactionsBeforeReview] and
    [userHasReviewed] are those of the previous render leaves the timer
    table and the next handle untouched, whatever else changed: a pending
    navigation to the review is neither cancelled nor started again. *)
Theorem rerender_keeps_review_timer (w0 : World) (rs : list (Account * Hooks))
    (account0 : Account) (h0 : Hooks) (account : Account) (h : Hooks) :
  useNavigate h = useNavigate h0 ->
  transactionsBeforeReview h = transactionsBeforeReview h0 ->
  userHasReviewed h = userHasReviewed h0 ->
  exists inst,
    fst (renders (rs ++ [(account0, h0)]) mounting w0) = Normal inst /\
    let w := snd (renders (rs ++ [(account0, h0)]) mounting w0) in
    timers (snd (commit account h inst w)) = timers w /\
    nextTimerId (snd (commit account h inst w)) = nextTimerId w.
Proof.
  intros Hnav Hremaining Hreviewed.
  destruct (renders_after_render account0 h0 rs mounting w0 I)
    as (inst & Hfst & _ & Hdeps & _).
  exists inst. split; [exact Hfst |].
  cbv zeta. set (w := snd (renders (rs ++ [(account0, h0)]) mounting w0)).
  destruct (commit_effects account h inst w)
    as (timeoutId & ts & next & Hreview & Hcommit).
  destruct Hcommit as (_ & _ & Hts & Hnext).
  destruct Hreview as (_ & _ & Hts' & Hnext').
  rewrite Hts, Hnext, <- Hts', <- Hnext'.
  unfold useReviewEffect. rewrite Hdeps.
  replace (reviewDeps h0) with (reviewDeps h)
    by (unfold reviewDeps; now rewrite Hnav, Hremaining, Hreviewed).
  unfold depsChanged. rewrite same_review_deps_refl. simpl. auto.
Qed.

End EffectCallProperties.

(** The sample wallet with a review due, rendered again because the
    token-balance hook revalidates. *)
Lemma rerender_keeps_review_timer_witness :
  exists inst,
    fst (renders (C := Sample.wallet)
           ([] ++ [(Sample.account, Sample.with_review Sample.hooks false 0)])
           mounting Sample.online) = Normal inst /\
    let w := snd (renders (C := Sample.wallet)
                    ([] ++ [(Sample.account, Sample.with_review Sample.hooks false 0)])
                    mounting Sample.online) in
    timers
      (snd (commit Sample.account
              (Sample.with_notice (Sample.with_review Sample.hooks false 0) false true)
              inst w)) = timers w /\
    nextTimerId
      (snd (commit Sample.account
              (Sample.with_notice (Sample.with_review Sample.hooks false 0) false true)
              inst w)) = nextTimerId w.
Proof.
  apply (rerender_keeps_review_timer (C := Sample.wallet) Sample.online []
           Sample.account (Sample.with_review Sample.hooks false 0)
           Sample.account
           (Sample.with_notice (Sample.with_review Sample.hooks false 0) false true));
    reflexivity.
Defined.

(* ===================================================================== *)
(** ** What every render shows *)
(* ===================================================================== *)

Section SkeletonProperties.
Context `{C : Collaborators}.

(** X7. Whatever the hooks return (an error, an account that is not
    deployed, banners or none), the tree shows exactly one header, with the
    status, the account, its name and the redeploy callback of that account,
    one row of buttons for the account, one status-message container and
    one multicall token list with the new-token button. *)
Theorem render_always_shows (account : Account) (h : Hooks) :
  shown isHeader (render account h) =
    [AccountTokensHeader (status h) account
       (getAccountName account (accountNames h)) (onRedeploy account)] /\
  shown isButtons (render account h) = [AccountTokensButtons account] /\
  shown isStatusMessage (render account h) = [StatusMessageBannerContainer] /\
  shown isTokenListMulticall (render account h) =
    [TokenListMulticall (tokenListVariant h) true].
Proof.
  repeat split; render_cases account h; reflexivity.
Qed.

(** X8. Every token list in the tree, the multicall one and the one behind
    the error boundary, carries the same [variant]: ["default"] when the
    currency display is enabled and ["no-currency"] when it is not. *)
Theorem token_list_variants_agree (account : Account) (h : Hooks) :
  Forall
    (fun e =>
       match variant_of e with
       | Some variant =>
           variant = if currencyDisplayEnabled h then "default" else "no-currency"
       | None => True
       end)
    (rendered (render account h)).
Proof.
  unfold render, when, tokenListVariant.
  destruct (isDeprecated account);
    destruct (showBackupBanner account h);
    destruct (showUpgradeBanner account h);
    destruct (showNoBalanceForUpgrade account h);
    destruct (accountIsDeployed h);
    destruct (error h);
    simpl; repeat constructor.
Qed.

End SkeletonProperties.

(* ===================================================================== *)
(** ** The expiry of the review timer *)
(* ===================================================================== *)

Section TimerExpiry.
Context `{C : Collaborators}.

Lemma find_skips_older (w0 : World) (id : Z) (rest : list Timer) :
  timers_ok w0 ->
  nextTimerId w0 <= id ->
  find (fun t => timer_id t =? id) (timers w0 ++ rest) =
  find (fun t => timer_id t =? id) rest.
Proof.
  intros [_ Hall] Hid.
  induction Hall as [| t ts Ht _ IH]; simpl.
  - reflexivity.
  - destruct (Z.eqb_spec (timer_id t) id) as [Heq | Hne]; [lia | exact IH].
Qed.

(** X9. When the last render left a review due (the user has not reviewed
    and [transactionsBeforeReview] is [0]), the instance holds the handle of
    the pending timer; when that timer expires, the component navigates to
    the user-review route, once, with the [navigate] of that render, and the
    timer is gone; the cleanup that runs afterwards changes nothing. *)
Theorem review_timer_expiry (w0 : World) (rs : list (Account * Hooks))
    (account : Account) (h : Hooks) :
  timers_ok w0 ->
  userHasReviewed h = false ->
  transactionsBeforeReview h = 0 ->
  exists inst id,
    fst (renders (rs ++ [(account, h)]) mounting w0) = Normal inst /\
    review_timeoutId inst = Some id /\
    let w := snd (renders (rs ++ [(account, h)]) mounting w0) in
    runs (fireTimer id) w tt
      [CallNavigate (useNavigate h) routes_userReview]
      (timers w0) (nextTimerId w) /\
    timers (snd (unmount inst (snd (fireTimer id w)))) = timers w0.
Proof.
  intros Hok Hrev Hzero.
  assert (Hpos : 0 < nextTimerId w0) by apply Hok.
  assert (Hstart : review_inv w0 mounting w0).
  { unfold review_inv; simpl. split; [lia | split; [reflexivity | exact I]]. }
  destruct (renders_inv w0 account h rs Hok mounting w0 Hstart)
    as (inst & Hfst & Hdeps & Hinv).
  set (w := snd (renders (rs ++ [(account, h)]) mounting w0)) in *.
  destruct Hinv as [Hnext Hinv].
  destruct (review_timeoutId inst) as [id |] eqn:Htid.
  - destruct Hinv as (Hid & nav & Hd & Htimers).
    rewrite Hdeps in Hd. unfold reviewDeps in Hd. injection Hd as Hnav _ _.
    exists inst, id. split; [exact Hfst |]. split; [exact Htid |].
    cbv zeta.
    assert (Hfire :
      fireTimer id w =
      (Normal tt,
       with_calls (with_timers w (timers w0) (nextTimerId w))
         (calls w ++ [CallNavigate (useNavigate h) routes_userReview]))).
    { unfold fireTimer. rewrite Htimers.
      rewrite find_skips_older by (assumption || lia). simpl.
      rewrite Z.eqb_refl. simpl.
      rewrite clear_own_timer by (assumption || lia).
      rewrite Hnav. reflexivity. }
    split.
    + unfold runs. rewrite Hfire. simpl. auto.
    + unfold unmount, reviewCleanup. rewrite Htid, Hfire.
      destruct (Z.eqb_spec id 0) as [Hz | _]; [lia |].
      unfold clearTimeout; simpl.
      apply filter_keeps_older; [assumption | lia].
  - destruct Hinv as [_ Hcond].
    rewrite Hdeps in Hcond. unfold reviewDeps in Hcond.
    rewrite Hrev, Hzero in Hcond. discriminate Hcond.
Qed.

(** X10. After the component is unmounted, the handle its cleanup held no
    longer fires: the expiry of that handle makes no call, so the navigation
    to the review does not happen once the screen is left. *)
Theorem unmounted_timer_never_fires (w0 : World) (rs : list (Account * Hooks))
    (account : Account) (h : Hooks) :
  timers_ok w0 ->
  exists inst,
    fst (renders (rs ++ [(account, h)]) mounting w0) = Normal inst /\
    forall id,
      review_timeoutId inst = Some id ->
      calls_of (fireTimer id)
        (snd (unmount inst (snd (renders (rs ++ [(account, h)]) mounting w0)))) = [].
Proof.
  intros Hok.
  assert (Hpos : 0 < nextTimerId w0) by apply Hok.
  assert (Hstart : review_inv w0 mounting w0).
  { unfold review_inv; simpl. split; [lia | split; [reflexivity | exact I]]. }
  destruct (renders_inv w0 account h rs Hok mounting w0 Hstart)
    as (inst & Hfst & Hdeps & Hinv).
  set (w := snd (renders (rs ++ [(account, h)]) mounting w0)) in *.
  exists inst. split; [exact Hfst |].
  intros id Htid.
  destruct Hinv as [Hnext Hinv]. rewrite Htid in Hinv.
  destruct Hinv as (Hid & nav & _ & Htimers).
  apply calls_of_extends. rewrite app_nil_r.
  unfold unmount, reviewCleanup. rewrite Htid.
  destruct (Z.eqb_spec id 0) as [Hz | _]; [lia |].
  unfold fireTimer, clearTimeout; simpl.
  rewrite Htimers, clear_own_timer by (assumption || lia).
  rewrite <- (app_nil_r (timers w0)).
  rewrite find_skips_older by (assumption || lia).
  reflexivity.
Qed.

End TimerExpiry.

(** The sample wallet with the review due on its first render. *)
Lemma review_timer_expiry_witness :
  exists inst id,
    fst (renders (C := Sample.wallet)
           ([] ++ [(Sample.account, Sample.with_review Sample.hooks false 0)])
           mounting Sample.online) = Normal inst /\
    review_timeoutId inst = Some id /\
    let w := snd (renders (C := Sample.wallet)
                    ([] ++ [(Sample.account, Sample.with_review Sample.hooks false 0)])
                    mounting Sample.online) in
    runs (fireTimer id) w tt
      [CallNavigate (C := Sample.wallet) 1%nat "/user-review"]
      (timers Sample.online) (nextTimerId w) /\
    timers (snd (unmount inst (snd (fireTimer id w)))) = timers Sample.online.
Proof.
  apply (review_timer_expiry (C := Sample.wallet) Sample.online []
           Sample.account (Sample.with_review Sample.hooks false 0)).
  - split; [reflexivity | constructor].
  - reflexivity.
  - reflexivity.
Defined.

(** The sample wallet, unmounted while the review timer is pending. *)
Lemma unmounted_timer_never_fires_witness :
  exists inst,
    fst (renders (C := Sample.wallet)
           ([] ++ [(Sample.account, Sample.with_review Sample.hooks false 0)])
           mounting Sample.online) = Normal inst /\
    forall id,
      review_timeoutId inst = Some id ->
      calls_of (fireTimer id)
        (snd (unmount inst
                (snd (renders (C := Sample.wallet)
                        ([] ++ [(Sample.account, Sample.with_review Sample.hooks false 0)])
                        mounting Sample.online)))) = [].
Proof.
  apply (unmounted_timer_never_fires (C := Sample.wallet) Sample.online []
           Sample.account (Sample.with_review Sample.hooks false 0)).
  split; [reflexivity | constructor].
Defined.
